(** * DeSciDataShareFhe: batch lifecycle and decryption coordination

    A shallow embedding of [contracts/DeSci_DataShare_Fhe.sol].  Storage is
    a record of scalars and finite maps, a transaction is a function from
    the storage and the transaction environment to either the new storage
    or the revert reason, and the external FHE library is an interface
    ([FHE.Lib]) the contract is parameterised by. *)

From Stdlib Require Import NArith Lia.
From stdpp Require Import gmap list.

Local Open Scope N_scope.

(** ** Machine types *)

Abbreviation uint256 := N (only parsing).
Abbreviation address := N (only parsing).
Abbreviation bytes32 := N (only parsing).
Abbreviation bytes := (list Byte.byte) (only parsing).

(** [euint32] is a user-defined value type over [bytes32] (a ciphertext
    handle); an unassigned local of that type holds the zero handle. *)
Abbreviation euint32 := N (only parsing).

Definition MAX_UINT256 : N := 2 ^ 256 - 1.

(** ** Revert reasons *)

(** The nine custom errors the contract declares, followed by the two ways
    the compiler makes a transaction revert on its own: [Panic 0x11] on
    overflow of checked arithmetic, and a revert without data when
    [abi.decode] is given fewer bytes than the static type needs. *)
Inductive Error : Type :=
| NotOwner
| NotProvider
| Paused
| CooldownActive
| BatchClosedOrInvalid
| InvalidCooldown
| ReplayAttempt
| StateMismatch
| InvalidProof
| Panic (code : N)
| DecodeRevert.

Inductive Result (A : Type) : Type :=
| Ok (a : A)
| Revert (e : Error).
Arguments Ok {A} a.
Arguments Revert {A} e.

Definition bind {A B : Type} (r : Result A) (k : A -> Result B) : Result B :=
  match r with
  | Ok a => k a
  | Revert e => Revert e
  end.

Notation "x <- r ;; k" := (bind r (fun x => k))
  (at level 100, r at next level, right associativity).
Notation "r ;;; k" := (bind r (fun _ => k))
  (at level 100, right associativity).

(** [if (c) revert e;] *)
Definition revert_if (c : bool) (e : Error) : Result unit :=
  if c then Revert e else Ok tt.

Definition ARITHMETIC_OVERFLOW : N := 17.

(** [a + b] and [a++] on [uint256] under Solidity 0.8 checked arithmetic. *)
Definition checked_add (a b : N) : Result N :=
  if a + b <=? MAX_UINT256 then Ok (a + b) else Revert (Panic ARITHMETIC_OVERFLOW).

(** [abi.decode(data, (uint256))]: the first 32 bytes, big endian. *)
Definition be_to_N (bs : bytes) : N :=
  fold_left (fun acc b => acc * 256 + Byte.to_N b) bs 0.

Definition abi_decode_uint256 (data : bytes) : Result N :=
  if (length data <? 32)%nat then Revert DecodeRevert
  else Ok (be_to_N (take 32 data)).

(** ** Storage *)

Record Batch : Type := {
  isOpen : bool;
  dataCount : uint256
}.

Record DecryptionContext : Type := {
  batchId : uint256;
  stateHash : bytes32;
  processed : bool
}.

Inductive Event : Type :=
| OwnershipTransferred (previousOwner newOwner : address)
| ProviderAdded (provider : address)
| ProviderRemoved (provider : address)
| PauseToggled (p : bool)
| CooldownSecondsSet (oldCooldown newCooldown : uint256)
| BatchOpened (id : uint256)
| BatchClosed (id : uint256)
| DataSubmitted (provider : address) (id : uint256) (dataId : uint256) (encryptedData : bytes32)
| DecryptionRequested (requestId : uint256) (id : uint256)
| DecryptionCompleted (requestId : uint256) (id : uint256) (average : uint256).

(** A Solidity mapping is total: a key never written reads as the zero
    value of the value type. *)
Class ZeroValue (A : Type) : Type := zero_value : A.

#[export] Instance uint_zero : ZeroValue N := 0.
#[export] Instance bool_zero : ZeroValue bool := false.
#[export] Instance Batch_zero : ZeroValue Batch :=
  {| isOpen := false; dataCount := 0 |}.
#[export] Instance DecryptionContext_zero : ZeroValue DecryptionContext :=
  {| batchId := 0; stateHash := 0; processed := false |}.

Definition mread {A : Type} `{ZeroValue A} (m : gmap N A) (k : N) : A :=
  default zero_value (m !! k).

Notation "m .[ k ]" := (mread m k) (at level 1, left associativity, format "m .[ k ]").

Record State : Type := {
  owner : address;
  isProvider : gmap N bool;
  paused : bool;
  cooldownSeconds : uint256;
  lastSubmissionTime : gmap N N;
  lastDecryptionRequestTime : gmap N N;
  batches : gmap N Batch;
  currentBatchId : uint256;
  decryptionContexts : gmap N DecryptionContext;
  events : list Event
}.

Definition set_owner (v : address) (s : State) : State :=
  {| owner := v; isProvider := isProvider s; paused := paused s;
     cooldownSeconds := cooldownSeconds s;
     lastSubmissionTime := lastSubmissionTime s;
     lastDecryptionRequestTime := lastDecryptionRequestTime s;
     batches := batches s; currentBatchId := currentBatchId s;
     decryptionContexts := decryptionContexts s; events := events s |}.

Definition set_isProvider (v : gmap N bool) (s : State) : State :=
  {| owner := owner s; isProvider := v; paused := paused s;
     cooldownSeconds := cooldownSeconds s;
     lastSubmissionTime := lastSubmissionTime s;
     lastDecryptionRequestTime := lastDecryptionRequestTime s;
     batches := batches s; currentBatchId := currentBatchId s;
     decryptionContexts := decryptionContexts s; events := events s |}.

Definition set_paused (v : bool) (s : State) : State :=
  {| owner := owner s; isProvider := isProvider s; paused := v;
     cooldownSeconds := cooldownSeconds s;
     lastSubmissionTime := lastSubmissionTime s;
     lastDecryptionRequestTime := lastDecryptionRequestTime s;
     batches := batches s; currentBatchId := currentBatchId s;
     decryptionContexts := decryptionContexts s; events := events s |}.

Definition set_cooldownSeconds (v : uint256) (s : State) : State :=
  {| owner := owner s; isProvider := isProvider s; paused := paused s;
     cooldownSeconds := v;
     lastSubmissionTime := lastSubmissionTime s;
     lastDecryptionRequestTime := lastDecryptionRequestTime s;
     batches := batches s; currentBatchId := currentBatchId s;
     decryptionContexts := decryptionContexts s; events := events s |}.

Definition set_lastSubmissionTime (v : gmap N N) (s : State) : State :=
  {| owner := owner s; isProvider := isProvider s; paused := paused s;
     cooldownSeconds := cooldownSeconds s;
     lastSubmissionTime := v;
     lastDecryptionRequestTime := lastDecryptionRequestTime s;
     batches := batches s; currentBatchId := currentBatchId s;
     decryptionContexts := decryptionContexts s; events := events s |}.

Definition set_lastDecryptionRequestTime (v : gmap N N) (s : State) : State :=
  {| owner := owner s; isProvider := isProvider s; paused := paused s;
     cooldownSeconds := cooldownSeconds s;
     lastSubmissionTime := lastSubmissionTime s;
     lastDecryptionRequestTime := v;
     batches := batches s; currentBatchId := currentBatchId s;
     decryptionContexts := decryptionContexts s; events := events s |}.

Definition set_batches (v : gmap N Batch) (s : State) : State :=
  {| owner := owner s; isProvider := isProvider s; paused := paused s;
     cooldownSeconds := cooldownSeconds s;
     lastSubmissionTime := lastSubmissionTime s;
     lastDecryptionRequestTime := lastDecryptionRequestTime s;
     batches := v; currentBatchId := currentBatchId s;
     decryptionContexts := decryptionContexts s; events := events s |}.

Definition set_currentBatchId (v : uint256) (s : State) : State :=
  {| owner := owner s; isProvider := isProvider s; paused := paused s;
     cooldownSeconds := cooldownSeconds s;
     lastSubmissionTime := lastSubmissionTime s;
     lastDecryptionRequestTime := lastDecryptionRequestTime s;
     batches := batches s; currentBatchId := v;
     decryptionContexts := decryptionContexts s; events := events s |}.

Definition set_decryptionContexts (v : gmap N DecryptionContext) (s : State) : State :=
  {| owner := owner s; isProvider := isProvider s; paused := paused s;
     cooldownSeconds := cooldownSeconds s;
     lastSubmissionTime := lastSubmissionTime s;
     lastDecryptionRequestTime := lastDecryptionRequestTime s;
     batches := batches s; currentBatchId := currentBatchId s;
     decryptionContexts := v; events := events s |}.

(** [emit e;] appends to the transaction log. *)
Definition emit (e : Event) (s : State) : State :=
  {| owner := owner s; isProvider := isProvider s; paused := paused s;
     cooldownSeconds := cooldownSeconds s;
     lastSubmissionTime := lastSubmissionTime s;
     lastDecryptionRequestTime := lastDecryptionRequestTime s;
     batches := batches s; currentBatchId := currentBatchId s;
     decryptionContexts := decryptionContexts s; events := events s ++ [e] |}.

(** Storage before the constructor runs: every slot is zero. *)
Definition empty_storage : State :=
  {| owner := 0; isProvider := ∅; paused := false; cooldownSeconds := 0;
     lastSubmissionTime := ∅; lastDecryptionRequestTime := ∅;
     batches := ∅; currentBatchId := 0; decryptionContexts := ∅;
     events := [] |}.

(** ** Transaction environment *)

(** [msg.sender], [block.timestamp], and the identifier the decryption
    oracle hands out should this transaction call [FHE.requestDecryption]. *)
Record Env : Type := {
  msg_sender : address;
  block_timestamp : uint256;
  oracle_requestId : uint256
}.

(** ** The external FHE library *)

(** [@fhevm/solidity/lib/FHE.sol] is not part of the repository; the
    contract is embedded over an arbitrary implementation of the functions
    it calls, each a deterministic function of its arguments as section 6
    of the specification takes them to be.  [keccak256_encode cts a] stands for
    [keccak256(abi.encode(cts, a))] and [this] for [address(this)].
    [checkSignatures] answers [true] when the library call returns and
    [false] when it throws. *)
Module FHE.
Class Lib : Type := {
  this : address;
  asEuint32 : N -> euint32;
  add : euint32 -> euint32 -> euint32;
  mul : euint32 -> euint32 -> euint32;
  inv : euint32 -> euint32;
  toBytes32 : euint32 -> bytes32;
  checkSignatures : uint256 -> bytes -> bytes -> bool;
  keccak256_encode : list bytes32 -> address -> bytes32
}.
End FHE.

(** ** The contract *)

(** Functions keep their names and the order of their statements; storage
    and environment are explicit arguments.  Two names are taken by record
    fields: a [batchId] parameter is written [id], and the [initialized]
    parameter of [_initIfNeeded] is the field [init_flag] of its locals. *)
Section Contract.
Context {L : FHE.Lib}.

(** *** Modifiers *)

Definition onlyOwner (s : State) (env : Env) : Result unit :=
  revert_if (negb (msg_sender env =? owner s)) NotOwner.

Definition onlyProvider (s : State) (env : Env) : Result unit :=
  revert_if (negb (isProvider s).[msg_sender env]) NotProvider.

Definition whenNotPaused (s : State) : Result unit :=
  revert_if (paused s) Paused.

(** *** Batch lifecycle *)

Definition _openBatch (id : uint256) (s : State) : State :=
  emit (BatchOpened id)
    (set_batches (<[id := {| isOpen := true; dataCount := 0 |}]> (batches s)) s).

Definition _closeBatch (id : uint256) (s : State) : State :=
  if (currentBatchId s <=? id) && isOpen (batches s).[id] then
    emit (BatchClosed id)
      (set_batches
         (<[id := {| isOpen := false; dataCount := dataCount (batches s).[id] |}]>
            (batches s)) s)
  else s.

Definition constructor (env : Env) : State :=
  let s := set_owner (msg_sender env) empty_storage in
  let s := set_isProvider (<[owner s := true]> (isProvider s)) s in
  let s := emit (ProviderAdded (owner s)) s in
  let s := set_currentBatchId 1 s in
  let s := _openBatch (currentBatchId s) s in
  set_cooldownSeconds 60 s.

(** *** Administration *)

Definition transferOwnership (newOwner : address) (s : State) (env : Env)
  : Result State :=
  onlyOwner s env ;;;
  let previousOwner := owner s in
  let s := set_owner newOwner s in
  Ok (emit (OwnershipTransferred previousOwner newOwner) s).

Definition addProvider (provider : address) (s : State) (env : Env)
  : Result State :=
  onlyOwner s env ;;;
  if negb (isProvider s).[provider] then
    let s := set_isProvider (<[provider := true]> (isProvider s)) s in
    Ok (emit (ProviderAdded provider) s)
  else Ok s.

Definition removeProvider (provider : address) (s : State) (env : Env)
  : Result State :=
  onlyOwner s env ;;;
  if (isProvider s).[provider] then
    let s := set_isProvider (<[provider := false]> (isProvider s)) s in
    Ok (emit (ProviderRemoved provider) s)
  else Ok s.

Definition setPaused (_paused : bool) (s : State) (env : Env) : Result State :=
  onlyOwner s env ;;;
  let s := set_paused _paused s in
  Ok (emit (PauseToggled _paused) s).

Definition setCooldownSeconds (newCooldownSeconds : uint256) (s : State) (env : Env)
  : Result State :=
  onlyOwner s env ;;;
  revert_if (newCooldownSeconds =? 0) InvalidCooldown ;;;
  let oldCooldown := cooldownSeconds s in
  let s := set_cooldownSeconds newCooldownSeconds s in
  Ok (emit (CooldownSecondsSet oldCooldown newCooldownSeconds) s).

Definition openNewBatch (s : State) (env : Env) : Result State :=
  onlyOwner s env ;;;
  whenNotPaused s ;;;
  let s := _closeBatch (currentBatchId s) s in
  next <- checked_add (currentBatchId s) 1 ;;
  let s := set_currentBatchId next s in
  Ok (_openBatch (currentBatchId s) s).

(** *** Submission *)

Definition submitData (encryptedData : euint32) (s : State) (env : Env)
  : Result State :=
  onlyProvider s env ;;;
  whenNotPaused s ;;;
  allowedAt <- checked_add (lastSubmissionTime s).[msg_sender env] (cooldownSeconds s) ;;
  revert_if (block_timestamp env <? allowedAt) CooldownActive ;;;
  revert_if (negb (isOpen (batches s).[currentBatchId s])) BatchClosedOrInvalid ;;;
  let s := set_lastSubmissionTime
             (<[msg_sender env := block_timestamp env]> (lastSubmissionTime s)) s in
  count <- checked_add (dataCount (batches s).[currentBatchId s]) 1 ;;
  let s := set_batches
             (<[currentBatchId s :=
                  {| isOpen := isOpen (batches s).[currentBatchId s];
                     dataCount := count |}]> (batches s)) s in
  Ok (emit (DataSubmitted (msg_sender env) (currentBatchId s)
              (dataCount (batches s).[currentBatchId s])
              (FHE.toBytes32 encryptedData)) s).

(** *** Averaging *)

(** The locals of the averaging block.  [requestAverageDecryption] and
    [myCallback] carry the same block verbatim (declarations, loop,
    count, average, [cts]), so it is embedded once. *)
Record AvgLocals : Type := {
  encryptedSum : euint32;
  encryptedCount : euint32;
  initialized : bool
}.

Definition avg_locals_init : AvgLocals :=
  {| encryptedSum := 0; encryptedCount := 0; initialized := false |}.

(** The locals of [_initIfNeeded]: its two parameters. *)
Record InitLocals : Type := {
  target : euint32;
  init_flag : bool
}.

Definition _initIfNeeded_body (f : InitLocals) : InitLocals :=
  if negb (init_flag f) then
    {| target := FHE.asEuint32 0; init_flag := init_flag f |}
  else f.

(** A call of a function without return values: the arguments are copied
    into fresh locals of the callee, the body runs on them, and they are
    dropped on return. *)
Definition call_void {Caller Callee : Type}
    (args : Caller -> Callee) (body : Callee -> Callee) (c : Caller) : Caller :=
  let _ := body (args c) in c.

(** [_initIfNeeded(encryptedSum, initialized);] *)
Definition _initIfNeeded : AvgLocals -> AvgLocals :=
  call_void
    (fun c => {| target := encryptedSum c; init_flag := initialized c |})
    _initIfNeeded_body.

Definition loop_body (f : AvgLocals) : AvgLocals :=
  let encryptedData := FHE.asEuint32 0 in
  let f := _initIfNeeded f in
  {| encryptedSum := FHE.add (encryptedSum f) encryptedData;
     encryptedCount := encryptedCount f;
     initialized := initialized f |}.

(** One round of [for (uint256 i = 1; i <= n; i++) body]: the body, then
    the checked increment of [i]. *)
Definition loop_round (r : Result (N * AvgLocals)) : Result (N * AvgLocals) :=
  st <- r ;;
  let f := loop_body (snd st) in
  i <- checked_add (fst st) 1 ;;
  Ok (i, f).

(** The loop runs its body for [i = 1 .. n], that is [n] rounds. *)
Definition avg_loop (n : uint256) (f : AvgLocals) : Result AvgLocals :=
  st <- N.iter n loop_round (Ok (1, f)) ;;
  Ok (snd st).

(** The averaging block up to [cts]. *)
Definition average_cts (id : uint256) (s : State) : Result (list bytes32) :=
  f <- avg_loop (dataCount (batches s).[id]) avg_locals_init ;;
  let f := {| encryptedSum := encryptedSum f;
              encryptedCount := FHE.asEuint32 (dataCount (batches s).[id]);
              initialized := initialized f |} in
  let encryptedAverage := FHE.mul (encryptedSum f) (FHE.inv (encryptedCount f)) in
  Ok [FHE.toBytes32 encryptedAverage].

Definition _hashCiphertexts (cts : list bytes32) : bytes32 :=
  FHE.keccak256_encode cts FHE.this.

Definition _isValidBatchForAnalysis (id : uint256) (s : State) : bool :=
  (id <=? currentBatchId s) && (0 <? id)
  && negb (isOpen (batches s).[id]) && (0 <? dataCount (batches s).[id]).

(** *** Decryption requests *)

Definition requestAverageDecryption (id : uint256) (s : State) (env : Env)
  : Result State :=
  whenNotPaused s ;;;
  allowedAt <- checked_add (lastDecryptionRequestTime s).[msg_sender env]
                 (cooldownSeconds s) ;;
  revert_if (block_timestamp env <? allowedAt) CooldownActive ;;;
  revert_if (negb (_isValidBatchForAnalysis id s)) BatchClosedOrInvalid ;;;
  let s := set_lastDecryptionRequestTime
             (<[msg_sender env := block_timestamp env]>
                (lastDecryptionRequestTime s)) s in
  cts <- average_cts id s ;;
  let hash := _hashCiphertexts cts in
  let requestId := oracle_requestId env in
  let s := set_decryptionContexts
             (<[requestId := {| batchId := id; stateHash := hash;
                                processed := false |}]>
                (decryptionContexts s)) s in
  Ok (emit (DecryptionRequested requestId id) s).

Definition myCallback (requestId : uint256) (cleartexts proof : bytes)
    (s : State) (env : Env) : Result State :=
  revert_if (processed (decryptionContexts s).[requestId]) ReplayAttempt ;;;
  let id := batchId (decryptionContexts s).[requestId] in
  cts <- average_cts id s ;;
  let currentHash := _hashCiphertexts cts in
  revert_if (negb (currentHash =? stateHash (decryptionContexts s).[requestId]))
    StateMismatch ;;;
  revert_if (negb (FHE.checkSignatures requestId cleartexts proof)) InvalidProof ;;;
  average <- abi_decode_uint256 cleartexts ;;
  let s := set_decryptionContexts
             (<[requestId :=
                  {| batchId := batchId (decryptionContexts s).[requestId];
                     stateHash := stateHash (decryptionContexts s).[requestId];
                     processed := true |}]> (decryptionContexts s)) s in
  Ok (emit (DecryptionCompleted requestId id average) s).

(** *** Transactions *)

Inductive Call : Type :=
| CallTransferOwnership (newOwner : address)
| CallAddProvider (provider : address)
| CallRemoveProvider (provider : address)
| CallSetPaused (_paused : bool)
| CallSetCooldownSeconds (newCooldownSeconds : uint256)
| CallOpenNewBatch
| CallSubmitData (encryptedData : euint32)
| CallRequestAverageDecryption (id : uint256)
| CallMyCallback (requestId : uint256) (cleartexts proof : bytes).

Definition exec (c : Call) (s : State) (env : Env) : Result State :=
  match c with
  | CallTransferOwnership newOwner => transferOwnership newOwner s env
  | CallAddProvider provider => addProvider provider s env
  | CallRemoveProvider provider => removeProvider provider s env
  | CallSetPaused p => setPaused p s env
  | CallSetCooldownSeconds n => setCooldownSeconds n s env
  | CallOpenNewBatch => openNewBatch s env
  | CallSubmitData d => submitData d s env
  | CallRequestAverageDecryption id => requestAverageDecryption id s env
  | CallMyCallback requestId cleartexts proof =>
      myCallback requestId cleartexts proof s env
  end.

(** The oracle hands out each request identifier once: the one offered to
    a transaction is not the key of a context stored earlier.  (Every
    identifier handed out is stored by the transaction that received it.) *)
Definition oracle_fresh (s : State) (env : Env) : Prop :=
  decryptionContexts s !! oracle_requestId env = None.

(** A committed transaction; a reverted one leaves the storage as it was. *)
Definition tx (s s' : State) : Prop :=
  exists c env, exec c s env = Ok s'.

(** A committed transaction in which the oracle keeps its contract. *)
Definition step (s s' : State) : Prop :=
  exists c env, oracle_fresh s env /\ exec c s env = Ok s'.

(** The storages the contract can be in: the one the constructor leaves,
    and those any sequence of committed transactions leads to from it. *)
Inductive reachable : State -> Prop :=
| reachable_constructor env : reachable (constructor env)
| reachable_tx s s' : reachable s -> tx s s' -> reachable s'.
End Contract.

(** ** A simulation of the library *)

(** Handles are symbolic, as a coprocessor makes them: a trivial
    encryption of [v] has handle [v mod 2^32 + 1], and the handle of a
    result mixes the operation with the handles of its operands.  No
    handle it returns and no digest is zero; a proof is accepted when its
    first byte is [0x01].  The simulation serves to run the contract on
    concrete inputs. *)
Module Sim.
Definition mix (op : N) (a b : N) : N :=
  ((op * 1000003 + a) * 1000003 + b) mod MAX_UINT256 + 1.

Definition enc (v : N) : euint32 := v mod 2 ^ 32 + 1.

Definition digest (cts : list bytes32) (a : address) : bytes32 :=
  fold_left (mix 4) cts a.

Definition accepts (requestId : uint256) (cleartexts proof : bytes) : bool :=
  match proof with
  | b :: _ => Byte.to_N b =? 1
  | [] => false
  end.

Definition lib : FHE.Lib :=
  {| FHE.this := 49374;
     FHE.asEuint32 := enc;
     FHE.add := mix 1;
     FHE.mul := mix 2;
     FHE.inv := fun a => mix 3 a 0;
     FHE.toBytes32 := fun h => h;
     FHE.checkSignatures := accepts;
     FHE.keccak256_encode := digest |}.

(** The handle of the average of a batch of [n] items as the averaging
    block builds it over [lib], and the digest stored for it. *)
Definition average_handle (n : N) : euint32 :=
  mix 2 (N.iter n (fun acc => mix 1 acc (enc 0)) 0) (mix 3 (enc n) 0).

Definition commitment (n : N) : bytes32 := digest [average_handle n] 49374.

Definition deployer : address := 4096.
Definition alice : address := 4097.
Definition mallory : address := 4098.

Definition at_time (sender : address) (now : uint256) (rid : uint256) : Env :=
  {| msg_sender := sender; block_timestamp := now; oracle_requestId := rid |}.

(** Run a list of transactions, skipping the ones that revert. *)
Definition run (txs : list (Call * Env)) (s : State) : State :=
  fold_left (fun s tx =>
               match exec (L := lib) (fst tx) s (snd tx) with
               | Ok s' => s'
               | Revert _ => s
               end) txs s.

(** 32 bytes encoding the number 5, and two proofs. *)
Definition five : bytes := replicate 31 Byte.x00 ++ [Byte.x05].
Definition good_proof : bytes := [Byte.x01].
Definition bad_proof : bytes := [Byte.x00].

(** A history: deployment at time 1000; the deployer submits at 2000 and
    rotates at 2001; alice asks for the average of batch 1 at 3000 and the
    oracle answers under identifier 77; mallory relays the answer. *)
Definition genesis : State := constructor (at_time deployer 1000 0).
Definition submitted : State :=
  run [(CallSubmitData 6, at_time deployer 2000 0)] genesis.
Definition sealed : State :=
  run [(CallOpenNewBatch, at_time deployer 2001 0)] submitted.
Definition requested : State :=
  run [(CallRequestAverageDecryption 1, at_time alice 3000 77)] sealed.
Definition fulfilled : State :=
  run [(CallMyCallback 77 five good_proof, at_time mallory 4000 78)] requested.

(** The owner pauses right after deployment. *)
Definition halted : State :=
  run [(CallSetPaused true, at_time deployer 1500 0)] genesis.

(** The owner pauses shortly after the deployer's submission, and shortly
    after alice's request. *)
Definition submitted_halted : State :=
  run [(CallSetPaused true, at_time deployer 2005 0)] submitted.
Definition requested_halted : State :=
  run [(CallSetPaused true, at_time deployer 3005 0)] requested.

(** After the deployer's submission the owner sets the largest cooldown. *)
Definition saturated : State :=
  run [(CallSetCooldownSeconds MAX_UINT256, at_time deployer 2500 0)] submitted.

(** The owner hands the contract to the zero address. *)
Definition renounced : State :=
  run [(CallTransferOwnership 0, at_time deployer 1500 0)] genesis.

(** [requested] with one more item written into the closed batch 1: a
    storage no transaction produces, on which the commitment check of
    [myCallback] fires. *)
Definition drifted : State :=
  set_batches (<[1 := {| isOpen := false; dataCount := 2 |}]> (batches requested))
    requested.
End Sim.

(** ** The failure taxonomy of the specification *)

(** The specification names failures by kind; [classify] gives the kind
    each revert reason of the contract falls under.  A compiler-inserted
    revert has none. *)
Module Spec.
Inductive Failure : Type :=
| Unauthorized
| Paused
| CooldownActive
| BatchClosedOrInvalid
| InvalidCooldown
| UnknownRequest
| ReplayAttempt
| StateMismatch
| InvalidProof.

End Spec.

Definition classify (e : Error) : option Spec.Failure :=
  match e with
  | NotOwner | NotProvider => Some Spec.Unauthorized
  | Paused => Some Spec.Paused
  | CooldownActive => Some Spec.CooldownActive
  | BatchClosedOrInvalid => Some Spec.BatchClosedOrInvalid
  | InvalidCooldown => Some Spec.InvalidCooldown
  | ReplayAttempt => Some Spec.ReplayAttempt
  | StateMismatch => Some Spec.StateMismatch
  | InvalidProof => Some Spec.InvalidProof
  | Panic _ | DecodeRevert => None
  end.

(** ** Invariants *)

(** The batch table in every reachable storage: identifiers start at 1,
    the open batch is the current one and no other, and slot 0 is never
    written. *)
Definition batch_inv (s : State) : Prop :=
  1 <= currentBatchId s
  /\ (forall b, isOpen (batches s).[b] = true <-> b = currentBatchId s)
  /\ dataCount (batches s).[0] = 0.

(** The sum the averaging loop leaves after [n] rounds from [acc]. *)
Definition folded_sum `{FHE.Lib} (n : N) (acc : euint32) : euint32 :=
  N.iter n (fun acc => FHE.add acc (FHE.asEuint32 0)) acc.

(** ** Reading the storage and the log *)

(** The functions that carry the [onlyOwner] modifier. *)
Definition owner_only (c : Call) : bool :=
  match c with
  | CallTransferOwnership _ | CallAddProvider _ | CallRemoveProvider _
  | CallSetPaused _ | CallSetCooldownSeconds _ | CallOpenNewBatch => true
  | CallSubmitData _ | CallRequestAverageDecryption _ | CallMyCallback _ _ _ => false
  end.

(** The batch identifiers of the [BatchOpened] events, of the [BatchClosed]
    events, and the [dataId]s of the [DataSubmitted] events of batch [b],
    each in the order of the log. *)
Definition opened_ids (log : list Event) : list N :=
  omap (fun e => match e with BatchOpened b => Some b | _ => None end) log.

Definition closed_ids (log : list Event) : list N :=
  omap (fun e => match e with BatchClosed b => Some b | _ => None end) log.

Definition submitted_ids (b : N) (log : list Event) : list N :=
  omap (fun e => match e with
                 | DataSubmitted _ b' dataId _ => if b' =? b then Some dataId else None
                 | _ => None
                 end) log.

(** The list [1; 2; ...; n]. *)
Definition ids_upto (n : N) : list N := N.of_nat <$> seq 1 (N.to_nat n).

(** No slot of the batch table beyond the current identifier is written. *)
Definition beyond_inv (s : State) : Prop :=
  forall b, currentBatchId s < b -> batches s !! b = None.

(** The log accounts for the batch table: batches were opened in the order
    [1 .. currentBatchId], all but the current one were closed in that
    order, and the items of each batch were numbered [1 .. dataCount]. *)
Definition log_inv (s : State) : Prop :=
  opened_ids (events s) = ids_upto (currentBatchId s)
  /\ closed_ids (events s) = ids_upto (currentBatchId s - 1)
  /\ forall b, submitted_ids b (events s) = ids_upto (dataCount (batches s).[b]).

(** Every stored context that is not processed names a closed batch that
    holds items, and its digest is the one the averaging block computes
    from the storage. *)
Definition contexts_inv `{FHE.Lib} (s : State) : Prop :=
  forall requestId ctx,
    decryptionContexts s !! requestId = Some ctx ->
    processed ctx = false ->
    0 < batchId ctx < currentBatchId s
    /\ 0 < dataCount (batches s).[batchId ctx]
    /\ exists cts, average_cts (batchId ctx) s = Ok cts
                   /\ _hashCiphertexts cts = stateHash ctx.

(** ** Basic facts *)

Lemma bind_Ok {A B : Type} (r : Result A) (k : A -> Result B) (b : B) :
  bind r k = Ok b <-> exists a, r = Ok a /\ k a = Ok b.
Proof.
  destruct r as [a|e]; simpl; split.
  - intros H. exists a. split; [reflexivity | exact H].
  - intros (a' & Ha & Hk). injection Ha as ->. exact Hk.
  - discriminate.
  - intros (a' & Ha & _). discriminate.
Qed.

Lemma revert_if_Ok (c : bool) (e : Error) (u : unit) :
  revert_if c e = Ok u <-> c = false.
Proof. destruct c, u; simpl; split; congruence. Qed.

Lemma revert_if_false (e : Error) : revert_if false e = Ok tt.
Proof. reflexivity. Qed.

Lemma revert_if_true (e : Error) : revert_if true e = Revert e.
Proof. reflexivity. Qed.

Lemma checked_add_Ok (a b c : N) :
  checked_add a b = Ok c <-> a + b <= MAX_UINT256 /\ c = a + b.
Proof.
  unfold checked_add. destruct (N.leb_spec (a + b) MAX_UINT256); split.
  - intros [= <-]. split; [assumption | reflexivity].
  - intros [_ ->]. reflexivity.
  - discriminate.
  - intros [Hle _]. lia.
Qed.

Lemma checked_add_fits (a b : N) :
  a + b <= MAX_UINT256 -> checked_add a b = Ok (a + b).
Proof. intros H. apply checked_add_Ok. split; [exact H | reflexivity]. Qed.

Lemma checked_add_overflow (a b : N) :
  MAX_UINT256 < a + b -> checked_add a b = Revert (Panic ARITHMETIC_OVERFLOW).
Proof.
  intros H. unfold checked_add.
  destruct (N.leb_spec (a + b) MAX_UINT256); [lia | reflexivity].
Qed.

Lemma mread_insert_eq {A : Type} `{ZeroValue A} (m : gmap N A) (k : N) (v : A) :
  (<[k := v]> m).[k] = v.
Proof. unfold mread. by rewrite lookup_insert_eq. Qed.

Lemma mread_insert_ne {A : Type} `{ZeroValue A} (m : gmap N A) (k k' : N) (v : A) :
  k <> k' -> (<[k := v]> m).[k'] = m.[k'].
Proof. intros Hne. unfold mread. by rewrite lookup_insert_ne. Qed.

Lemma mread_None {A : Type} `{ZeroValue A} (m : gmap N A) (k : N) :
  m !! k = None -> m.[k] = zero_value.
Proof. intros Hk. unfold mread. by rewrite Hk. Qed.

Lemma mread_Some {A : Type} `{ZeroValue A} (m : gmap N A) (k : N) (v : A) :
  m !! k = Some v -> m.[k] = v.
Proof. intros Hk. unfold mread. by rewrite Hk. Qed.

(** Taking a transaction apart: every [bind] that returned [Ok] yields its
    intermediate value, every passed [revert_if] its condition. *)
Ltac inv_tx H :=
  repeat match type of H with
    | bind _ _ = Ok _ =>
        let a := fresh "a" in
        let Ha := fresh "Hstep" in
        apply bind_Ok in H; destruct H as (a & Ha & H);
        first [ apply revert_if_Ok in Ha
              | apply checked_add_Ok in Ha; destruct Ha as [? ->]
              | idtac ]
    | Ok _ = Ok _ => injection H as H
    | (if ?c then _ else _) = Ok _ => destruct c eqn:?
    | Revert _ = Ok _ => discriminate H
    end.

(** ** The averaging loop *)

Section Averaging.
Context {L : FHE.Lib}.

Lemma _initIfNeeded_id (f : AvgLocals) : _initIfNeeded f = f.
Proof. reflexivity. Qed.

Lemma loop_body_sum (f : AvgLocals) :
  loop_body f =
    {| encryptedSum := FHE.add (encryptedSum f) (FHE.asEuint32 0);
       encryptedCount := encryptedCount f;
       initialized := initialized f |}.
Proof. reflexivity. Qed.

Lemma iter_loop_body (n : N) (f : AvgLocals) :
  N.iter n loop_body f =
    {| encryptedSum := folded_sum n (encryptedSum f);
       encryptedCount := encryptedCount f;
       initialized := initialized f |}.
Proof.
  induction n as [|n IH] using N.peano_ind.
  - destruct f; reflexivity.
  - unfold folded_sum. rewrite !N.iter_succ. fold (folded_sum n (encryptedSum f)).
    rewrite IH. reflexivity.
Qed.

Lemma loop_rounds_below (n : N) (f : AvgLocals) :
  n < MAX_UINT256 ->
  N.iter n loop_round (Ok (1, f)) = Ok (n + 1, N.iter n loop_body f).
Proof.
  induction n as [|n IH] using N.peano_ind; intros Hn.
  - reflexivity.
  - rewrite !N.iter_succ, IH by lia. unfold loop_round; cbn [bind fst snd].
    rewrite checked_add_fits by lia. cbn [bind]. do 2 f_equal. lia.
Qed.

Lemma loop_rounds_last (f : AvgLocals) :
  N.iter MAX_UINT256 loop_round (Ok (1, f)) = Revert (Panic ARITHMETIC_OVERFLOW).
Proof.
  assert (Hpos : 0 < MAX_UINT256) by (unfold MAX_UINT256; lia).
  destruct (N.pred MAX_UINT256) as [|p] eqn:Hp; [unfold MAX_UINT256 in Hp; lia|].
  assert (E : MAX_UINT256 = N.succ (N.pos p)) by lia.
  rewrite E, N.iter_succ, loop_rounds_below by lia.
  unfold loop_round; cbn [bind fst snd].
  rewrite checked_add_overflow; [reflexivity | lia].
Qed.

Lemma loop_rounds_above (k : N) (f : AvgLocals) :
  N.iter (MAX_UINT256 + k) loop_round (Ok (1, f)) = Revert (Panic ARITHMETIC_OVERFLOW).
Proof.
  induction k as [|k IH] using N.peano_ind.
  - rewrite N.add_0_r. apply loop_rounds_last.
  - rewrite N.add_succ_r, N.iter_succ, IH. reflexivity.
Qed.

Lemma avg_loop_closed (n : N) (f : AvgLocals) :
  avg_loop n f =
    if n <? MAX_UINT256 then
      Ok {| encryptedSum := folded_sum n (encryptedSum f);
            encryptedCount := encryptedCount f;
            initialized := initialized f |}
    else Revert (Panic ARITHMETIC_OVERFLOW).
Proof.
  unfold avg_loop. destruct (N.ltb_spec n MAX_UINT256) as [Hlt|Hge].
  - rewrite loop_rounds_below by exact Hlt. simpl. by rewrite iter_loop_body.
  - replace n with (MAX_UINT256 + (n - MAX_UINT256)) by lia.
    by rewrite loop_rounds_above.
Qed.

(** What the averaging block hashes depends on the batch's item count
    alone. *)
Lemma average_cts_closed (id : N) (s : State) :
  average_cts id s =
    if dataCount (batches s).[id] <? MAX_UINT256 then
      Ok [FHE.toBytes32
            (FHE.mul (folded_sum (dataCount (batches s).[id]) 0)
                     (FHE.inv (FHE.asEuint32 (dataCount (batches s).[id]))))]
    else Revert (Panic ARITHMETIC_OVERFLOW).
Proof.
  unfold average_cts. rewrite avg_loop_closed.
  destruct (dataCount (batches s).[id] <? MAX_UINT256); reflexivity.
Qed.
End Averaging.

(** ** What a committed transaction changes *)

Section Effects.
Context {L : FHE.Lib}.

(** The batch table and the current identifier change in two ways only:
    a submission counts one more item in the open current batch, and a
    rotation closes the current batch and opens its successor. *)
Lemma exec_batches (c : Call) (s s' : State) (env : Env) :
  exec c s env = Ok s' ->
  (currentBatchId s' = currentBatchId s /\ batches s' = batches s)
  \/ (currentBatchId s' = currentBatchId s
      /\ isOpen (batches s).[currentBatchId s] = true
      /\ batches s' =
           <[currentBatchId s :=
               {| isOpen := true;
                  dataCount := dataCount (batches s).[currentBatchId s] + 1 |}]>
             (batches s))
  \/ (currentBatchId s' = currentBatchId s + 1
      /\ batches s' =
           <[currentBatchId s + 1 := {| isOpen := true; dataCount := 0 |}]>
             (batches (_closeBatch (currentBatchId s) s))).
Proof.
  intros H. destruct c; cbn [exec] in H.
  - unfold transferOwnership in H. inv_tx H. subst s'. left; split; reflexivity.
  - unfold addProvider in H. inv_tx H; subst s'; left; split; reflexivity.
  - unfold removeProvider in H. inv_tx H; subst s'; left; split; reflexivity.
  - unfold setPaused in H. inv_tx H. subst s'. left; split; reflexivity.
  - unfold setCooldownSeconds in H. inv_tx H. subst s'. left; split; reflexivity.
  - unfold openNewBatch in H. inv_tx H. subst s'. right; right.
    assert (Hcur : currentBatchId (_closeBatch (currentBatchId s) s) = currentBatchId s).
    { unfold _closeBatch. destruct (_ && _); reflexivity. }
    cbn. rewrite Hcur. split; reflexivity.
  - unfold submitData in H. inv_tx H. subst s'. right; left. cbn.
    match goal with
    | Hopen : negb (isOpen _) = false |- _ =>
        apply negb_false_iff in Hopen; rewrite Hopen
    end.
    split; [reflexivity | split; reflexivity].
  - unfold requestAverageDecryption in H. inv_tx H. subst s'.
    left; split; reflexivity.
  - unfold myCallback in H. inv_tx H. subst s'. left; split; reflexivity.
Qed.

(** The request table changes in two ways only: a request stores an
    unprocessed context under the identifier the oracle returned, and a
    callback marks the context it was called for as processed. *)
Lemma exec_contexts (c : Call) (s s' : State) (env : Env) :
  exec c s env = Ok s' ->
  decryptionContexts s' = decryptionContexts s
  \/ (exists id h,
        decryptionContexts s' =
          <[oracle_requestId env :=
              {| batchId := id; stateHash := h; processed := false |}]>
            (decryptionContexts s))
  \/ (exists requestId,
        decryptionContexts s' =
          <[requestId :=
              {| batchId := batchId (decryptionContexts s).[requestId];
                 stateHash := stateHash (decryptionContexts s).[requestId];
                 processed := true |}]> (decryptionContexts s)).
Proof.
  intros H. destruct c; cbn [exec] in H.
  - unfold transferOwnership in H. inv_tx H. subst s'. by left.
  - unfold addProvider in H. inv_tx H; subst s'; by left.
  - unfold removeProvider in H. inv_tx H; subst s'; by left.
  - unfold setPaused in H. inv_tx H. subst s'. by left.
  - unfold setCooldownSeconds in H. inv_tx H. subst s'. by left.
  - unfold openNewBatch in H. inv_tx H. subst s'. left. cbn.
    unfold _closeBatch. destruct (_ && _); reflexivity.
  - unfold submitData in H. inv_tx H. subst s'. by left.
  - unfold requestAverageDecryption in H. inv_tx H. subst s'.
    right; left. eexists _, _. reflexivity.
  - unfold myCallback in H. inv_tx H. subst s'.
    right; right. eexists. reflexivity.
Qed.

(** The owner changes through [transferOwnership] only. *)
Lemma exec_owner (c : Call) (s s' : State) (env : Env) :
  exec c s env = Ok s' ->
  owner s' = owner s
  \/ (exists newOwner, c = CallTransferOwnership newOwner /\ owner s' = newOwner).
Proof.
  intros H. destruct c; cbn [exec] in H.
  - unfold transferOwnership in H. inv_tx H. subst s'. right. by eexists.
  - unfold addProvider in H. inv_tx H; subst s'; by left.
  - unfold removeProvider in H. inv_tx H; subst s'; by left.
  - unfold setPaused in H. inv_tx H. subst s'. by left.
  - unfold setCooldownSeconds in H. inv_tx H. subst s'. by left.
  - unfold openNewBatch in H. inv_tx H. subst s'. left. cbn.
    unfold _closeBatch. destruct (_ && _); reflexivity.
  - unfold submitData in H. inv_tx H. subst s'. by left.
  - unfold requestAverageDecryption in H. inv_tx H. subst s'. by left.
  - unfold myCallback in H. inv_tx H. subst s'. by left.
Qed.

(** *** The batch invariant *)

Lemma closeBatch_current (s : State) :
  currentBatchId (_closeBatch (currentBatchId s) s) = currentBatchId s.
Proof. unfold _closeBatch. destruct (_ && _); reflexivity. Qed.

Lemma closeBatch_isOpen (s : State) (b : N) :
  isOpen (batches (_closeBatch (currentBatchId s) s)).[b] =
    if decide (b = currentBatchId s) then false else isOpen (batches s).[b].
Proof.
  unfold _closeBatch. rewrite N.leb_refl; cbn [andb].
  destruct (isOpen (batches s).[currentBatchId s]) eqn:Hopen; cbn.
  - destruct (decide (b = currentBatchId s)) as [->|Hne].
    + by rewrite mread_insert_eq.
    + by rewrite mread_insert_ne.
  - destruct (decide (b = currentBatchId s)) as [->|Hne]; [exact Hopen | reflexivity].
Qed.

Lemma closeBatch_dataCount (s : State) (b : N) :
  dataCount (batches (_closeBatch (currentBatchId s) s)).[b] = dataCount (batches s).[b].
Proof.
  unfold _closeBatch. destruct (_ && _); [|reflexivity]. cbn.
  destruct (decide (currentBatchId s = b)) as [->|Hne].
  - by rewrite mread_insert_eq.
  - by rewrite mread_insert_ne.
Qed.

Lemma batch_inv_constructor (env : Env) : batch_inv (constructor env).
Proof.
  unfold batch_inv; cbn. split; [lia|]. split.
  - intros b. destruct (decide (1 = b)) as [<-|Hne].
    + by rewrite mread_insert_eq.
    + rewrite mread_insert_ne by exact Hne. cbn. split; [discriminate | congruence].
  - by rewrite mread_insert_ne.
Qed.

Lemma batch_inv_exec (c : Call) (s s' : State) (env : Env) :
  batch_inv s -> exec c s env = Ok s' -> batch_inv s'.
Proof.
  intros (Hge & Hopen & Hzero) H.
  destruct (exec_batches _ _ _ _ H) as [[Hc Hb]|[(Hc & Ho & Hb)|[Hc Hb]]];
    unfold batch_inv; rewrite Hc, Hb.
  - done.
  - split; [exact Hge|]. split.
    + intros b. destruct (decide (currentBatchId s = b)) as [<-|Hne].
      * by rewrite mread_insert_eq.
      * rewrite mread_insert_ne by exact Hne. apply Hopen.
    + rewrite mread_insert_ne by lia. exact Hzero.
  - split; [lia|]. split.
    + intros b. destruct (decide (currentBatchId s + 1 = b)) as [<-|Hne].
      * by rewrite mread_insert_eq.
      * rewrite mread_insert_ne, closeBatch_isOpen by exact Hne.
        destruct (decide (b = currentBatchId s)) as [->|Hne'].
        -- split; [discriminate | lia].
        -- rewrite Hopen. split; [congruence | congruence].
    + rewrite mread_insert_ne, closeBatch_dataCount by lia. exact Hzero.
Qed.

Lemma reachable_batch_inv (s : State) : reachable s -> batch_inv s.
Proof.
  induction 1 as [env | s s' _ IH (c & env & Hexec)].
  - apply batch_inv_constructor.
  - exact (batch_inv_exec _ _ _ _ IH Hexec).
Qed.

Lemma step_tx (s s' : State) : step s s' -> tx s s'.
Proof. intros (c & env & _ & H). by exists c, env. Qed.

Lemma txs_reachable (s s' : State) : reachable s -> rtc tx s s' -> reachable s'.
Proof.
  intros Hs Htxs. induction Htxs as [|s s' s'' Htx _ IH]; [exact Hs|].
  apply IH. exact (reachable_tx _ _ Hs Htx).
Qed.

Lemma tx_currentBatchId (s s' : State) :
  tx s s' ->
  currentBatchId s' = currentBatchId s \/ currentBatchId s' = currentBatchId s + 1.
Proof.
  intros (c & env & H).
  destruct (exec_batches _ _ _ _ H) as [[Hc _]|[(Hc & _)|[Hc _]]]; auto.
Qed.

Lemma txs_currentBatchId (s s' : State) :
  rtc tx s s' -> currentBatchId s <= currentBatchId s'.
Proof.
  induction 1 as [|s s' s'' Htx _ IH]; [lia|].
  destruct (tx_currentBatchId _ _ Htx); lia.
Qed.

(** *** The processed flag *)

Lemma step_processed (s s' : State) (requestId : N) :
  step s s' ->
  processed (decryptionContexts s).[requestId] = true ->
  processed (decryptionContexts s').[requestId] = true.
Proof.
  intros (c & env & Hfresh & H) Hp.
  destruct (exec_contexts _ _ _ _ H) as [->|[(id & h & ->)|(r & ->)]].
  - exact Hp.
  - destruct (decide (oracle_requestId env = requestId)) as [<-|Hne].
    + rewrite (mread_None _ _ Hfresh) in Hp. discriminate.
    + by rewrite mread_insert_ne.
  - destruct (decide (r = requestId)) as [<-|Hne].
    + by rewrite mread_insert_eq.
    + by rewrite mread_insert_ne.
Qed.

Lemma steps_processed (s s' : State) (requestId : N) :
  rtc step s s' ->
  processed (decryptionContexts s).[requestId] = true ->
  processed (decryptionContexts s').[requestId] = true.
Proof.
  induction 1 as [|s s' s'' Hstep _ IH]; [done|].
  intros Hp. apply IH. exact (step_processed _ _ _ Hstep Hp).
Qed.
End Effects.

(** ** The decryption callback *)

Section Callback.
Context {L : FHE.Lib}.

(** The digest [myCallback] recomputes for a request nobody stored: the
    zero context names batch 0, which holds no items. *)
Lemma average_cts_slot0 (s : State) :
  batch_inv s ->
  average_cts 0 s = Ok [FHE.toBytes32 (FHE.mul 0 (FHE.inv (FHE.asEuint32 0)))].
Proof.
  intros (_ & _ & Hzero). rewrite average_cts_closed, Hzero. reflexivity.
Qed.

(** C1, amended.  The contract declares no UnknownRequest failure.  In a
    reachable storage a callback for an identifier that no request stored
    reads the zero context, recomputes the digest of the empty batch 0 and,
    that digest not being the zero word, fails with StateMismatch whatever
    the cleartext and the proof are. *)
Theorem C1_unknown_request_state_mismatch
    (s : State) (env : Env) (requestId : N) (cleartexts proof : bytes)
    (Hreach : reachable s)
    (Hunknown : decryptionContexts s !! requestId = None)
    (Hdigest : _hashCiphertexts
                 [FHE.toBytes32 (FHE.mul 0 (FHE.inv (FHE.asEuint32 0)))] <> 0) :
  myCallback requestId cleartexts proof s env = Revert StateMismatch
  /\ forall e, classify e <> Some Spec.UnknownRequest.
Proof.
  split; [|intros []; discriminate].
  unfold myCallback. rewrite (mread_None _ _ Hunknown). cbn [processed batchId stateHash zero_value DecryptionContext_zero].
  rewrite revert_if_false; cbn [bind].
  rewrite (average_cts_slot0 s (reachable_batch_inv s Hreach)); cbn [bind].
  apply N.eqb_neq in Hdigest. rewrite Hdigest. reflexivity.
Qed.

(** C2.  A callback that passes every check (the request is stored and not
    processed, the recomputed digest equals the stored one, the proof is
    accepted, the cleartext decodes) commits and sets processed; from then
    on, through any further committed transactions, the flag stays set and
    every callback for the same identifier fails with ReplayAttempt.  No
    committed transaction takes a set flag back.  (The transactions are
    those of [step]: the oracle returns an identifier once.) *)
Theorem C2_processed_once
    (s : State) (env : Env) (requestId : N) (cleartexts proof : bytes)
    (ctx : DecryptionContext) (cts : list bytes32) (average : N)
    (Hstored : decryptionContexts s !! requestId = Some ctx)
    (Hfresh : processed ctx = false)
    (Hcts : average_cts (batchId ctx) s = Ok cts)
    (Hhash : _hashCiphertexts cts = stateHash ctx)
    (Hproof : FHE.checkSignatures requestId cleartexts proof = true)
    (Hdecode : abi_decode_uint256 cleartexts = Ok average) :
  exists s',
    myCallback requestId cleartexts proof s env = Ok s'
    /\ processed (decryptionContexts s).[requestId] = false
    /\ processed (decryptionContexts s').[requestId] = true
    /\ (forall s'', rtc step s' s'' ->
         processed (decryptionContexts s'').[requestId] = true
         /\ forall env' cleartexts' proof',
              myCallback requestId cleartexts' proof' s'' env' = Revert ReplayAttempt)
    /\ (forall t t' r, step t t' ->
         processed (decryptionContexts t).[r] = true ->
         processed (decryptionContexts t').[r] = true).
Proof.
  eexists. split; [|split; [|split; [|split]]]; [| | | |apply step_processed].
  - unfold myCallback. rewrite (mread_Some _ _ _ Hstored), Hfresh.
    rewrite revert_if_false; cbn [bind]. rewrite Hcts; cbn [bind].
    rewrite Hhash, N.eqb_refl; cbn [negb]. rewrite revert_if_false; cbn [bind].
    rewrite Hproof; cbn [negb]. rewrite revert_if_false; cbn [bind].
    rewrite Hdecode; cbn [bind]. reflexivity.
  - by rewrite (mread_Some _ _ _ Hstored).
  - cbn. by rewrite mread_insert_eq.
  - intros s'' Hsteps.
    assert (Hp : processed (decryptionContexts s'').[requestId] = true).
    { apply (steps_processed _ _ _ Hsteps). cbn. by rewrite mread_insert_eq. }
    split; [exact Hp|]. intros env' cleartexts' proof'.
    unfold myCallback. rewrite Hp. reflexivity.
Qed.

(** C3.  For a stored request that is not processed, when the digest
    recomputed at callback time differs from the stored one, the callback
    fails with StateMismatch for every cleartext and every proof: the
    comparison precedes the proof check. *)
Theorem C3_state_mismatch_before_proof
    (s : State) (env : Env) (requestId : N) (cleartexts proof : bytes)
    (ctx : DecryptionContext) (cts : list bytes32)
    (Hstored : decryptionContexts s !! requestId = Some ctx)
    (Hfresh : processed ctx = false)
    (Hcts : average_cts (batchId ctx) s = Ok cts)
    (Hdiffer : _hashCiphertexts cts <> stateHash ctx) :
  myCallback requestId cleartexts proof s env = Revert StateMismatch.
Proof.
  unfold myCallback. rewrite (mread_Some _ _ _ Hstored), Hfresh.
  rewrite revert_if_false; cbn [bind]. rewrite Hcts; cbn [bind].
  apply N.eqb_neq in Hdiffer. rewrite Hdiffer. reflexivity.
Qed.
End Callback.

(** ** Batches, ownership, gates *)

Section Gates.
Context {L : FHE.Lib}.

(** C4.  In every reachable storage the open batch is the current one and
    no other; identifiers start at 1 and a committed transaction either
    keeps the current identifier or moves it to its successor; a batch
    that was assigned and is closed stays closed through every further
    transaction. *)
Theorem C4_single_open_batch (s : State) (Hreach : reachable s) :
  (forall b, isOpen (batches s).[b] = true <-> b = currentBatchId s)
  /\ 1 <= currentBatchId s
  /\ (forall env, currentBatchId (constructor env) = 1)
  /\ (forall s', tx s s' ->
        currentBatchId s' = currentBatchId s
        \/ currentBatchId s' = currentBatchId s + 1)
  /\ (forall s' b, rtc tx s s' ->
        b <= currentBatchId s ->
        isOpen (batches s).[b] = false ->
        isOpen (batches s').[b] = false).
Proof.
  destruct (reachable_batch_inv s Hreach) as (Hge & Hopen & _).
  split; [exact Hopen|]. split; [exact Hge|]. split; [reflexivity|].
  split; [apply tx_currentBatchId|].
  intros s' b Htxs Hb Hclosed.
  destruct (reachable_batch_inv s' (txs_reachable _ _ Hreach Htxs))
    as (_ & Hopen' & _).
  pose proof (txs_currentBatchId _ _ Htxs) as Hmono.
  destruct (isOpen (batches s').[b]) eqn:Hb'; [|reflexivity].
  apply Hopen' in Hb'.
  assert (Hne : b <> currentBatchId s).
  { intros Heq. apply Hopen in Heq. congruence. }
  lia.
Qed.

(** C5, amended.  After construction the owner is the deployer, which is
    not the zero address; the owner changes only through transferOwnership,
    which installs the address it is given without checking it, so the
    owner stays non-zero through every transaction other than a transfer to
    the zero address. *)
Theorem C5_owner_nonzero_unless_transferred (env0 : Env)
    (Hdeployer : msg_sender env0 <> 0) :
  owner (constructor env0) <> 0
  /\ (forall c s env s',
        owner s <> 0 -> c <> CallTransferOwnership 0 ->
        exec c s env = Ok s' -> owner s' <> 0)
  /\ (forall newOwner s env,
        msg_sender env = owner s ->
        exists s', transferOwnership newOwner s env = Ok s' /\ owner s' = newOwner).
Proof.
  split; [exact Hdeployer|]. split.
  - intros c s env s' Hnz Hc Hexec.
    destruct (exec_owner _ _ _ _ Hexec) as [->|(n & -> & ->)]; [exact Hnz|].
    intros ->. by apply Hc.
  - intros newOwner s env Hsender. eexists.
    unfold transferOwnership, onlyOwner.
    rewrite Hsender, N.eqb_refl. cbn. split; reflexivity.
Qed.

(** C6, amended.  The validity predicate holds exactly for a batch with
    [0 < id <= currentBatchId] that is closed and not empty.  A request on
    an open batch or on an empty one always fails; the failure is
    BatchClosedOrInvalid whenever the call gets past the pause gate and the
    cooldown check that come first. *)
Theorem C6_batch_validity (s : State) (env : Env) (id : N) :
  (_isValidBatchForAnalysis id s = true <->
     0 < id /\ id <= currentBatchId s
     /\ isOpen (batches s).[id] = false /\ 0 < dataCount (batches s).[id])
  /\ (isOpen (batches s).[id] = true \/ dataCount (batches s).[id] = 0 ->
      (exists e, requestAverageDecryption id s env = Revert e)
      /\ (paused s = false ->
          (lastDecryptionRequestTime s).[msg_sender env] + cooldownSeconds s
            <= block_timestamp env ->
          block_timestamp env <= MAX_UINT256 ->
          requestAverageDecryption id s env = Revert BatchClosedOrInvalid)).
Proof.
  assert (Hiff : _isValidBatchForAnalysis id s = true <->
     0 < id /\ id <= currentBatchId s
     /\ isOpen (batches s).[id] = false /\ 0 < dataCount (batches s).[id]).
  { unfold _isValidBatchForAnalysis.
    rewrite !andb_true_iff, N.leb_le, !N.ltb_lt, negb_true_iff. tauto. }
  split; [exact Hiff|]. intros Hbad.
  assert (Hinvalid : _isValidBatchForAnalysis id s = false).
  { apply not_true_is_false. intros Hv.
    apply Hiff in Hv. destruct Hv as (_ & _ & Hclosed & Hcount).
    destruct Hbad as [Hopen|Hzero]; [congruence | lia]. }
  split.
  - unfold requestAverageDecryption, whenNotPaused.
    destruct (paused s); [by eexists|]. cbn [revert_if bind].
    destruct (checked_add _ _) as [allowedAt|e]; [|by eexists]. cbn [bind].
    destruct (block_timestamp env <? allowedAt); [by eexists|]. cbn [revert_if bind].
    rewrite Hinvalid. by eexists.
  - intros Hrun Hcool Hnow.
    unfold requestAverageDecryption, whenNotPaused.
    rewrite Hrun; cbn [revert_if bind].
    rewrite checked_add_fits by lia. cbn [bind].
    destruct (N.ltb_spec (block_timestamp env)
                ((lastDecryptionRequestTime s).[msg_sender env] + cooldownSeconds s));
      [lia|]. cbn [revert_if bind].
    rewrite Hinvalid. reflexivity.
Qed.

(** C7, amended.  For a call that gets past the gates before the cooldown
    check (provider and not paused for a submission, not paused for a
    request) and whose sum of last action time and cooldown fits in 256
    bits, the call fails with CooldownActive exactly when
    [now < last + cooldown].  From [now = last + cooldown] on it is
    admitted, and [now] becomes the last action time, when the checks that
    follow pass: the current batch is open (submission), the batch is valid
    for analysis (request), and the item count can be incremented.  When
    the sum does not fit, the call reverts with the overflow panic. *)
Theorem C7_cooldown_gate (s : State) (env : Env) (encryptedData id : N) :
  ((isProvider s).[msg_sender env] = true ->
   paused s = false ->
   (MAX_UINT256 < (lastSubmissionTime s).[msg_sender env] + cooldownSeconds s ->
    submitData encryptedData s env = Revert (Panic ARITHMETIC_OVERFLOW))
   /\ ((lastSubmissionTime s).[msg_sender env] + cooldownSeconds s <= MAX_UINT256 ->
       (submitData encryptedData s env = Revert CooldownActive <->
          block_timestamp env
            < (lastSubmissionTime s).[msg_sender env] + cooldownSeconds s)
       /\ ((lastSubmissionTime s).[msg_sender env] + cooldownSeconds s
             <= block_timestamp env ->
           isOpen (batches s).[currentBatchId s] = true ->
           dataCount (batches s).[currentBatchId s] < MAX_UINT256 ->
           exists s', submitData encryptedData s env = Ok s'
                      /\ (lastSubmissionTime s').[msg_sender env]
                         = block_timestamp env)))
  /\ (paused s = false ->
      (MAX_UINT256
         < (lastDecryptionRequestTime s).[msg_sender env] + cooldownSeconds s ->
       requestAverageDecryption id s env = Revert (Panic ARITHMETIC_OVERFLOW))
      /\ ((lastDecryptionRequestTime s).[msg_sender env] + cooldownSeconds s
            <= MAX_UINT256 ->
          (requestAverageDecryption id s env = Revert CooldownActive <->
             block_timestamp env
               < (lastDecryptionRequestTime s).[msg_sender env] + cooldownSeconds s)
          /\ ((lastDecryptionRequestTime s).[msg_sender env] + cooldownSeconds s
                <= block_timestamp env ->
              _isValidBatchForAnalysis id s = true ->
              dataCount (batches s).[id] < MAX_UINT256 ->
              exists s', requestAverageDecryption id s env = Ok s'
                         /\ (lastDecryptionRequestTime s').[msg_sender env]
                            = block_timestamp env))).
Proof.
  split.
  - intros Hprov Hrun. unfold submitData, onlyProvider, whenNotPaused.
    rewrite Hprov, Hrun; cbn [negb revert_if bind]. split.
    { intros Hover. by rewrite checked_add_overflow. }
    intros Hfit. rewrite checked_add_fits by exact Hfit. cbn [bind].
    destruct (N.ltb_spec (block_timestamp env)
                ((lastSubmissionTime s).[msg_sender env] + cooldownSeconds s))
      as [Hlt|Hge]; cbn [revert_if bind].
    + split; [split; [intros _; exact Hlt | reflexivity] | lia].
    + split.
      * split; [|lia]. intros Hres. exfalso.
        destruct (isOpen (batches s).[currentBatchId s]);
          cbn [negb revert_if bind] in Hres; [|discriminate].
        unfold checked_add in Hres.
        destruct (_ <=? MAX_UINT256) in Hres; cbn [bind] in Hres; discriminate.
      * intros _ Hopen Hroom. rewrite Hopen; cbn [negb revert_if bind].
        cbn [batches set_lastSubmissionTime currentBatchId].
        rewrite checked_add_fits by lia. cbn [bind].
        eexists. split; [reflexivity|]. cbn. by rewrite mread_insert_eq.
  - intros Hrun. unfold requestAverageDecryption, whenNotPaused.
    rewrite Hrun; cbn [revert_if bind]. split.
    { intros Hover. by rewrite checked_add_overflow. }
    intros Hfit. rewrite checked_add_fits by exact Hfit. cbn [bind].
    destruct (N.ltb_spec (block_timestamp env)
                ((lastDecryptionRequestTime s).[msg_sender env] + cooldownSeconds s))
      as [Hlt|Hge]; cbn [revert_if bind].
    + split; [split; [intros _; exact Hlt | reflexivity] | lia].
    + split.
      * split; [|lia]. intros Hres. exfalso.
        destruct (_isValidBatchForAnalysis id s);
          cbn [negb revert_if bind] in Hres; [|discriminate].
        rewrite average_cts_closed in Hres.
        destruct (_ <? MAX_UINT256) in Hres; cbn [bind] in Hres; discriminate.
      * intros _ Hvalid Hroom. rewrite Hvalid; cbn [negb revert_if bind].
        rewrite average_cts_closed.
        cbn [batches set_lastDecryptionRequestTime].
        apply N.ltb_lt in Hroom. rewrite Hroom. cbn [bind].
        eexists. split; [reflexivity|]. cbn. by rewrite mread_insert_eq.
Qed.
End Gates.

(** ** The pause switch *)

Section Pause.
Context {L : FHE.Lib}.

(** C8, amended.  While paused, every submission and every rotation fails:
    with Paused when the caller passes the role check that comes first (a
    provider submitting, the owner rotating), with NotProvider or NotOwner
    otherwise.  Ownership transfer, adding and removing a provider, and
    setting the pause flag succeed for the owner while paused. *)
Theorem C8_pause_gates (s : State) (env : Env) (Hpaused : paused s = true) :
  (forall d,
     submitData d s env =
       Revert (if (isProvider s).[msg_sender env] then Paused else NotProvider))
  /\ openNewBatch s env =
       Revert (if msg_sender env =? owner s then Paused else NotOwner)
  /\ (msg_sender env = owner s ->
      (forall newOwner, exists s',
          transferOwnership newOwner s env = Ok s' /\ owner s' = newOwner)
      /\ (forall p, exists s',
            addProvider p s env = Ok s' /\ (isProvider s').[p] = true)
      /\ (forall p, exists s',
            removeProvider p s env = Ok s' /\ (isProvider s').[p] = false)
      /\ (forall b, exists s', setPaused b s env = Ok s' /\ paused s' = b)).
Proof.
  split; [|split].
  - intros d. unfold submitData, onlyProvider, whenNotPaused.
    destruct ((isProvider s).[msg_sender env]); cbn [negb revert_if bind];
      [rewrite Hpaused|]; reflexivity.
  - unfold openNewBatch, onlyOwner, whenNotPaused.
    destruct (msg_sender env =? owner s); cbn [negb revert_if bind];
      [rewrite Hpaused|]; reflexivity.
  - intros Hsender.
    assert (Hgate : onlyOwner s env = Ok tt).
    { unfold onlyOwner. rewrite Hsender, N.eqb_refl. reflexivity. }
    repeat split.
    + intros newOwner. eexists. unfold transferOwnership. rewrite Hgate.
      cbn. split; reflexivity.
    + intros p. unfold addProvider. rewrite Hgate; cbn [bind].
      destruct ((isProvider s).[p]) eqn:Hp; cbn [negb]; eexists;
        (split; [reflexivity|]); [exact Hp | cbn; by rewrite mread_insert_eq].
    + intros p. unfold removeProvider. rewrite Hgate; cbn [bind].
      destruct ((isProvider s).[p]) eqn:Hp; eexists;
        (split; [reflexivity|]); [cbn; by rewrite mread_insert_eq | exact Hp].
    + intros b. eexists. unfold setPaused. rewrite Hgate.
      cbn. split; reflexivity.
Qed.

(** C10.  While paused, a decryption request fails with Paused for every
    caller, time and batch: the pause gate is the first check. *)
Theorem C10_pause_blocks_requests (s : State) (env : Env) (id : N)
    (Hpaused : paused s = true) :
  requestAverageDecryption id s env = Revert Paused.
Proof.
  unfold requestAverageDecryption, whenNotPaused. rewrite Hpaused. reflexivity.
Qed.
End Pause.

(** ** The initialiser *)

Section Initialiser.
Context {L : FHE.Lib}.

(** C9.  A call of [_initIfNeeded] leaves the caller's locals, the running
    sum among them, as they were, for either value of the initialized flag,
    although the callee's own copy is assigned when the flag is unset.  The
    sum the loop leaves is therefore folded from the caller's starting
    handle and never from a seeded one. *)
Theorem C9_initIfNeeded_frame (f : AvgLocals) (flag : bool) (n : N) :
  _initIfNeeded
    {| encryptedSum := encryptedSum f; encryptedCount := encryptedCount f;
       initialized := flag |}
  = {| encryptedSum := encryptedSum f; encryptedCount := encryptedCount f;
       initialized := flag |}
  /\ target (_initIfNeeded_body {| target := encryptedSum f; init_flag := false |})
     = FHE.asEuint32 0
  /\ encryptedSum (loop_body f) = FHE.add (encryptedSum f) (FHE.asEuint32 0)
  /\ avg_loop n f =
       if n <? MAX_UINT256 then
         Ok {| encryptedSum := folded_sum n (encryptedSum f);
               encryptedCount := encryptedCount f;
               initialized := initialized f |}
       else Revert (Panic ARITHMETIC_OVERFLOW).
Proof.
  split; [apply _initIfNeeded_id|]. split; [reflexivity|].
  split; [by rewrite loop_body_sum | apply avg_loop_closed].
Qed.
End Initialiser.

(** ** The callback on the simulated history *)

(** At deployment nothing is stored under identifier 7, yet a callback for
    it fails with StateMismatch, which is not the UnknownRequest kind. *)
Lemma C1_unknown_request_counterexample :
  decryptionContexts Sim.genesis !! 7 = None
  /\ myCallback (L := Sim.lib) 7 Sim.five Sim.good_proof Sim.genesis
       (Sim.at_time Sim.mallory 2000 0) = Revert StateMismatch
  /\ ~ (exists e,
          myCallback (L := Sim.lib) 7 Sim.five Sim.good_proof Sim.genesis
            (Sim.at_time Sim.mallory 2000 0) = Revert e
          /\ classify e = Some Spec.UnknownRequest).
Proof.
  split; [reflexivity|]. split; [vm_compute; reflexivity|].
  intros (e & _ & He). destruct e; discriminate.
Qed.

Lemma C1_unknown_request_state_mismatch_witness :
  myCallback (L := Sim.lib) 7 Sim.five Sim.good_proof Sim.genesis
    (Sim.at_time Sim.mallory 2000 0) = Revert StateMismatch
  /\ forall e, classify e <> Some Spec.UnknownRequest.
Proof.
  apply (C1_unknown_request_state_mismatch (L := Sim.lib)).
  - apply reachable_constructor.
  - reflexivity.
  - vm_compute. discriminate.
Defined.

Lemma C2_processed_once_witness :
  exists s',
    myCallback (L := Sim.lib) 77 Sim.five Sim.good_proof Sim.requested
      (Sim.at_time Sim.mallory 4000 78) = Ok s'
    /\ processed (decryptionContexts Sim.requested).[77] = false
    /\ processed (decryptionContexts s').[77] = true
    /\ (forall s'', rtc (step (L := Sim.lib)) s' s'' ->
         processed (decryptionContexts s'').[77] = true
         /\ forall env' cleartexts' proof',
              myCallback (L := Sim.lib) 77 cleartexts' proof' s'' env'
                = Revert ReplayAttempt)
    /\ (forall t t' r, step (L := Sim.lib) t t' ->
         processed (decryptionContexts t).[r] = true ->
         processed (decryptionContexts t').[r] = true).
Proof.
  apply (C2_processed_once (L := Sim.lib) Sim.requested
           (Sim.at_time Sim.mallory 4000 78) 77 Sim.five Sim.good_proof
           {| batchId := 1; stateHash := Sim.commitment 1; processed := false |}
           [Sim.average_handle 1] 5).
  - vm_compute. reflexivity.
  - reflexivity.
  - vm_compute. reflexivity.
  - vm_compute. reflexivity.
  - reflexivity.
  - vm_compute. reflexivity.
Defined.

Lemma C3_state_mismatch_before_proof_witness :
  myCallback (L := Sim.lib) 77 Sim.five Sim.good_proof Sim.drifted
    (Sim.at_time Sim.mallory 4000 78) = Revert StateMismatch
  /\ myCallback (L := Sim.lib) 77 Sim.five Sim.bad_proof Sim.drifted
       (Sim.at_time Sim.mallory 4000 78) = Revert StateMismatch.
Proof.
  split;
    apply (C3_state_mismatch_before_proof (L := Sim.lib) Sim.drifted _ 77 _ _
             {| batchId := 1; stateHash := Sim.commitment 1; processed := false |}
             [Sim.average_handle 2]);
    first [ reflexivity | vm_compute; reflexivity | vm_compute; discriminate ].
Defined.

(** ** The simulated history is a run of the contract *)

(** One committed transaction of the simulation: the call and its
    environment are given, the rest is computed. *)
Ltac sim_tx c env :=
  exists c, env; split; vm_compute; reflexivity.

Lemma step_genesis_submitted : step (L := Sim.lib) Sim.genesis Sim.submitted.
Proof. sim_tx (CallSubmitData 6) (Sim.at_time Sim.deployer 2000 0). Qed.

Lemma step_submitted_sealed : step (L := Sim.lib) Sim.submitted Sim.sealed.
Proof. sim_tx CallOpenNewBatch (Sim.at_time Sim.deployer 2001 0). Qed.

Lemma step_sealed_requested : step (L := Sim.lib) Sim.sealed Sim.requested.
Proof. sim_tx (CallRequestAverageDecryption 1) (Sim.at_time Sim.alice 3000 77). Qed.

Lemma step_genesis_halted : step (L := Sim.lib) Sim.genesis Sim.halted.
Proof. sim_tx (CallSetPaused true) (Sim.at_time Sim.deployer 1500 0). Qed.

Lemma step_submitted_saturated : step (L := Sim.lib) Sim.submitted Sim.saturated.
Proof.
  sim_tx (CallSetCooldownSeconds MAX_UINT256) (Sim.at_time Sim.deployer 2500 0).
Qed.

Lemma step_genesis_renounced : step (L := Sim.lib) Sim.genesis Sim.renounced.
Proof. sim_tx (CallTransferOwnership 0) (Sim.at_time Sim.deployer 1500 0). Qed.

Lemma reachable_genesis : reachable (L := Sim.lib) Sim.genesis.
Proof. apply reachable_constructor. Qed.

Lemma reachable_submitted : reachable (L := Sim.lib) Sim.submitted.
Proof. exact (reachable_tx _ _ reachable_genesis (step_tx _ _ step_genesis_submitted)). Qed.

Lemma reachable_sealed : reachable (L := Sim.lib) Sim.sealed.
Proof. exact (reachable_tx _ _ reachable_submitted (step_tx _ _ step_submitted_sealed)). Qed.

Lemma reachable_requested : reachable (L := Sim.lib) Sim.requested.
Proof. exact (reachable_tx _ _ reachable_sealed (step_tx _ _ step_sealed_requested)). Qed.

Lemma reachable_halted : reachable (L := Sim.lib) Sim.halted.
Proof. exact (reachable_tx _ _ reachable_genesis (step_tx _ _ step_genesis_halted)). Qed.

Lemma reachable_saturated : reachable (L := Sim.lib) Sim.saturated.
Proof. exact (reachable_tx _ _ reachable_submitted (step_tx _ _ step_submitted_saturated)). Qed.

Lemma reachable_renounced : reachable (L := Sim.lib) Sim.renounced.
Proof. exact (reachable_tx _ _ reachable_genesis (step_tx _ _ step_genesis_renounced)). Qed.

(** The relayed answer was accepted: the request is processed, the batch
    is as it was, a second relay is a replay, and a bad proof on the
    pending request is rejected as such. *)
Example history_fulfilled :
  processed (decryptionContexts Sim.fulfilled).[77] = true
  /\ batches Sim.fulfilled = batches Sim.sealed
  /\ last (events Sim.fulfilled) = Some (DecryptionCompleted 77 1 5).
Proof. repeat split; vm_compute; reflexivity. Qed.

Example history_replay :
  myCallback (L := Sim.lib) 77 Sim.five Sim.good_proof Sim.fulfilled
    (Sim.at_time Sim.mallory 4001 79) = Revert ReplayAttempt.
Proof. vm_compute. reflexivity. Qed.

Example history_bad_proof :
  myCallback (L := Sim.lib) 77 Sim.five Sim.bad_proof Sim.requested
    (Sim.at_time Sim.mallory 4000 78) = Revert InvalidProof.
Proof. vm_compute. reflexivity. Qed.

(** ** Batches, ownership and gates on the simulated history *)

Lemma C4_single_open_batch_witness :
  (forall b, isOpen (batches Sim.sealed).[b] = true <-> b = currentBatchId Sim.sealed)
  /\ 1 <= currentBatchId Sim.sealed
  /\ (forall env, currentBatchId (constructor env) = 1)
  /\ (forall s', tx (L := Sim.lib) Sim.sealed s' ->
        currentBatchId s' = currentBatchId Sim.sealed
        \/ currentBatchId s' = currentBatchId Sim.sealed + 1)
  /\ (forall s' b, rtc (tx (L := Sim.lib)) Sim.sealed s' ->
        b <= currentBatchId Sim.sealed ->
        isOpen (batches Sim.sealed).[b] = false ->
        isOpen (batches s').[b] = false).
Proof. exact (C4_single_open_batch (L := Sim.lib) Sim.sealed reachable_sealed). Defined.

(** The deployer, as owner, transfers ownership to the zero address: the
    transaction commits and the owner of the reachable storage is zero. *)
Lemma C5_owner_zero_counterexample :
  owner Sim.genesis <> 0
  /\ transferOwnership 0 Sim.genesis (Sim.at_time Sim.deployer 1500 0)
     = Ok Sim.renounced
  /\ reachable (L := Sim.lib) Sim.renounced
  /\ owner Sim.renounced = 0.
Proof.
  split; [vm_compute; discriminate|].
  split; [vm_compute; reflexivity|].
  split; [exact reachable_renounced | reflexivity].
Qed.

Lemma C5_owner_nonzero_unless_transferred_witness :
  owner (constructor (Sim.at_time Sim.deployer 1000 0)) <> 0
  /\ (forall c s env s',
        owner s <> 0 -> c <> CallTransferOwnership 0 ->
        exec (L := Sim.lib) c s env = Ok s' -> owner s' <> 0)
  /\ (forall newOwner s env,
        msg_sender env = owner s ->
        exists s', transferOwnership newOwner s env = Ok s' /\ owner s' = newOwner).
Proof.
  apply (C5_owner_nonzero_unless_transferred (L := Sim.lib)
           (Sim.at_time Sim.deployer 1000 0)).
  vm_compute. discriminate.
Defined.

(** A request on the open current batch fails with Paused while the
    contract is paused, and with CooldownActive when the caller asked less
    than a cooldown ago; neither is BatchClosedOrInvalid. *)
Lemma C6_open_batch_counterexample :
  (currentBatchId Sim.halted = 1
   /\ isOpen (batches Sim.halted).[1] = true
   /\ requestAverageDecryption (L := Sim.lib) 1 Sim.halted
        (Sim.at_time Sim.alice 3000 77) = Revert Paused)
  /\ (currentBatchId Sim.requested = 2
      /\ isOpen (batches Sim.requested).[2] = true
      /\ requestAverageDecryption (L := Sim.lib) 2 Sim.requested
           (Sim.at_time Sim.alice 3010 78) = Revert CooldownActive)
  /\ ~ (requestAverageDecryption (L := Sim.lib) 1 Sim.halted
          (Sim.at_time Sim.alice 3000 77) = Revert BatchClosedOrInvalid).
Proof.
  split; [|split].
  - split; [reflexivity|]. split; vm_compute; reflexivity.
  - split; [reflexivity|]. split; vm_compute; reflexivity.
  - vm_compute. discriminate.
Qed.

Lemma C6_batch_validity_witness :
  requestAverageDecryption (L := Sim.lib) 2 Sim.sealed
    (Sim.at_time Sim.alice 3000 77) = Revert BatchClosedOrInvalid.
Proof.
  destruct (C6_batch_validity (L := Sim.lib) Sim.sealed
              (Sim.at_time Sim.alice 3000 77) 2) as [_ Hfails].
  apply Hfails.
  - left. vm_compute. reflexivity.
  - reflexivity.
  - vm_compute. discriminate.
  - vm_compute. discriminate.
Defined.

(** With the largest cooldown in force, the deployer (a provider, not
    paused) submits at 5000, before last + cooldown: the sum overflows and
    the call reverts with the arithmetic panic; mallory, who is no provider,
    is turned away with NotProvider although her cooldown has not passed
    either.  While paused, a provider's submission and alice's request
    inside their cooldown fail with Paused.  And at [now = last + cooldown]
    exactly, alice's request for the open batch is not admitted. *)
Lemma C7_cooldown_counterexample :
  ((isProvider Sim.saturated).[Sim.deployer] = true
   /\ paused Sim.saturated = false
   /\ 5000 < (lastSubmissionTime Sim.saturated).[Sim.deployer]
             + cooldownSeconds Sim.saturated
   /\ submitData (L := Sim.lib) 9 Sim.saturated (Sim.at_time Sim.deployer 5000 0)
      = Revert (Panic ARITHMETIC_OVERFLOW))
  /\ (5000 < (lastSubmissionTime Sim.saturated).[Sim.mallory]
             + cooldownSeconds Sim.saturated
      /\ submitData (L := Sim.lib) 9 Sim.saturated (Sim.at_time Sim.mallory 5000 0)
         = Revert NotProvider)
  /\ (2010 < (lastSubmissionTime Sim.submitted_halted).[Sim.deployer]
             + cooldownSeconds Sim.submitted_halted
      /\ submitData (L := Sim.lib) 9 Sim.submitted_halted
           (Sim.at_time Sim.deployer 2010 0) = Revert Paused)
  /\ (3010 < (lastDecryptionRequestTime Sim.requested_halted).[Sim.alice]
             + cooldownSeconds Sim.requested_halted
      /\ requestAverageDecryption (L := Sim.lib) 1 Sim.requested_halted
           (Sim.at_time Sim.alice 3010 78) = Revert Paused)
  /\ (3060 = (lastDecryptionRequestTime Sim.requested).[Sim.alice]
             + cooldownSeconds Sim.requested
      /\ requestAverageDecryption (L := Sim.lib) 2 Sim.requested
           (Sim.at_time Sim.alice 3060 78) = Revert BatchClosedOrInvalid).
Proof.
  split; [|split; [|split; [|split]]].
  - split; [reflexivity|]. split; [reflexivity|].
    split; vm_compute; reflexivity.
  - split; vm_compute; reflexivity.
  - split; vm_compute; reflexivity.
  - split; vm_compute; reflexivity.
  - split; vm_compute; reflexivity.
Qed.

Lemma C7_cooldown_gate_witness :
  ((submitData (L := Sim.lib) 9 Sim.submitted (Sim.at_time Sim.deployer 2060 0)
      = Revert CooldownActive <-> 2060 < 2000 + 60)
   /\ exists s',
        submitData (L := Sim.lib) 9 Sim.submitted (Sim.at_time Sim.deployer 2060 0)
          = Ok s'
        /\ (lastSubmissionTime s').[Sim.deployer] = 2060)
  /\ ((requestAverageDecryption (L := Sim.lib) 1 Sim.requested
         (Sim.at_time Sim.alice 3060 78) = Revert CooldownActive <-> 3060 < 3000 + 60)
      /\ exists s',
           requestAverageDecryption (L := Sim.lib) 1 Sim.requested
             (Sim.at_time Sim.alice 3060 78) = Ok s'
           /\ (lastDecryptionRequestTime s').[Sim.alice] = 3060)
  /\ submitData (L := Sim.lib) 9 Sim.saturated (Sim.at_time Sim.deployer 5000 0)
     = Revert (Panic ARITHMETIC_OVERFLOW).
Proof.
  split; [|split].
  - destruct (proj1 (C7_cooldown_gate (L := Sim.lib) Sim.submitted
                       (Sim.at_time Sim.deployer 2060 0) 9 1)) as [_ Hfit].
    + reflexivity.
    + reflexivity.
    + destruct Hfit as [Hiff Hadmit]; [vm_compute; discriminate|].
      split; [exact Hiff|]. apply Hadmit.
      * vm_compute. discriminate.
      * reflexivity.
      * vm_compute. reflexivity.
  - destruct (proj2 (C7_cooldown_gate (L := Sim.lib) Sim.requested
                       (Sim.at_time Sim.alice 3060 78) 9 1)) as [_ Hfit].
    + reflexivity.
    + destruct Hfit as [Hiff Hadmit]; [vm_compute; discriminate|].
      split; [exact Hiff|]. apply Hadmit.
      * vm_compute. discriminate.
      * vm_compute. reflexivity.
      * vm_compute. reflexivity.
  - destruct (proj1 (C7_cooldown_gate (L := Sim.lib) Sim.saturated
                       (Sim.at_time Sim.deployer 5000 0) 9 1)) as [Hover _].
    + reflexivity.
    + reflexivity.
    + apply Hover. vm_compute. reflexivity.
Defined.

(** While paused, mallory's submission fails with NotProvider and alice's
    rotation with NotOwner: the role check comes before the pause gate. *)
Lemma C8_pause_counterexample :
  paused Sim.halted = true
  /\ submitData (L := Sim.lib) 9 Sim.halted (Sim.at_time Sim.mallory 1600 0)
     = Revert NotProvider
  /\ openNewBatch Sim.halted (Sim.at_time Sim.alice 1600 0) = Revert NotOwner.
Proof. split; [reflexivity|]. split; vm_compute; reflexivity. Qed.

Lemma C8_pause_gates_witness :
  (forall d,
     submitData (L := Sim.lib) d Sim.halted (Sim.at_time Sim.deployer 1600 0)
     = Revert Paused)
  /\ openNewBatch Sim.halted (Sim.at_time Sim.deployer 1600 0) = Revert Paused
  /\ exists s',
       addProvider Sim.alice Sim.halted (Sim.at_time Sim.deployer 1600 0) = Ok s'
       /\ (isProvider s').[Sim.alice] = true.
Proof.
  destruct (C8_pause_gates (L := Sim.lib) Sim.halted
              (Sim.at_time Sim.deployer 1600 0) eq_refl)
    as (Hsubmit & Hrotate & Hadmin).
  split; [exact Hsubmit|]. split; [exact Hrotate|].
  destruct (Hadmin eq_refl) as (_ & Hadd & _). exact (Hadd Sim.alice).
Defined.

Lemma C10_pause_blocks_requests_witness :
  requestAverageDecryption (L := Sim.lib) 1 Sim.halted
    (Sim.at_time Sim.alice 3000 77) = Revert Paused.
Proof.
  apply (C10_pause_blocks_requests (L := Sim.lib)). reflexivity.
Defined.

(** * Further properties of the contract *)

(** ** Lists of identifiers *)

Lemma ids_upto_0 : ids_upto 0 = [].
Proof. reflexivity. Qed.

Lemma ids_upto_succ (n : N) : ids_upto (n + 1) = ids_upto n ++ [n + 1].
Proof.
  unfold ids_upto. replace (N.to_nat (n + 1)) with (S (N.to_nat n)) by lia.
  rewrite seq_S, fmap_app. cbn [fmap list_fmap]. do 3 f_equal. lia.
Qed.

Lemma length_ids_upto (n : N) : length (ids_upto n) = N.to_nat n.
Proof. unfold ids_upto. by rewrite length_fmap, length_seq. Qed.

(** ** Transactions, the batch table and the log *)

Section Log.
Context {L : FHE.Lib}.

Lemma closeBatch_lookup_ne (s : State) (b : N) :
  b <> currentBatchId s ->
  batches (_closeBatch (currentBatchId s) s) !! b = batches s !! b.
Proof.
  intros Hne. unfold _closeBatch. destruct (_ && _); [|reflexivity].
  cbn. by rewrite lookup_insert_ne.
Qed.

Lemma closeBatch_mread_ne (s : State) (b : N) :
  b <> currentBatchId s ->
  (batches (_closeBatch (currentBatchId s) s)).[b] = (batches s).[b].
Proof. intros Hne. unfold mread. by rewrite closeBatch_lookup_ne. Qed.

Lemma closeBatch_events (s : State) :
  isOpen (batches s).[currentBatchId s] = true ->
  events (_closeBatch (currentBatchId s) s)
    = events s ++ [BatchClosed (currentBatchId s)].
Proof.
  intros Hopen. unfold _closeBatch. rewrite N.leb_refl, Hopen. reflexivity.
Qed.

(** What a committed transaction does to the batch table together with
    what it writes to the log. *)
Lemma exec_log (c : Call) (s s' : State) (env : Env) :
  exec c s env = Ok s' ->
  (currentBatchId s' = currentBatchId s /\ batches s' = batches s
   /\ opened_ids (events s') = opened_ids (events s)
   /\ closed_ids (events s') = closed_ids (events s)
   /\ forall b, submitted_ids b (events s') = submitted_ids b (events s))
  \/ (currentBatchId s' = currentBatchId s
      /\ isOpen (batches s).[currentBatchId s] = true
      /\ batches s' =
           <[currentBatchId s :=
               {| isOpen := true;
                  dataCount := dataCount (batches s).[currentBatchId s] + 1 |}]>
             (batches s)
      /\ events s' =
           events s ++
             [DataSubmitted (msg_sender env) (currentBatchId s)
                (dataCount (batches s).[currentBatchId s] + 1)
                (match c with CallSubmitData d => FHE.toBytes32 d | _ => 0 end)])
  \/ (c = CallOpenNewBatch
      /\ currentBatchId s' = currentBatchId s + 1
      /\ batches s' =
           <[currentBatchId s + 1 := {| isOpen := true; dataCount := 0 |}]>
             (batches (_closeBatch (currentBatchId s) s))
      /\ events s' =
           events (_closeBatch (currentBatchId s) s)
             ++ [BatchOpened (currentBatchId s + 1)]).
Proof.
  assert (Hsame : forall e log,
            match e with
            | BatchOpened _ | BatchClosed _ | DataSubmitted _ _ _ _ => False
            | _ => True
            end ->
            opened_ids (log ++ [e]) = opened_ids log
            /\ closed_ids (log ++ [e]) = closed_ids log
            /\ forall b, submitted_ids b (log ++ [e]) = submitted_ids b log).
  { intros e log He. unfold opened_ids, closed_ids, submitted_ids.
    repeat split; intros; rewrite omap_app; destruct e; cbn;
      by rewrite ?app_nil_r. }
  intros H. destruct c; cbn [exec] in H.
  - unfold transferOwnership in H. inv_tx H. subst s'. left.
    split; [done|]. split; [done|]. by apply Hsame.
  - unfold addProvider in H. inv_tx H; subst s'; left;
      (split; [done|]); (split; [done|]); [by apply Hsame | done].
  - unfold removeProvider in H. inv_tx H; subst s'; left;
      (split; [done|]); (split; [done|]); [by apply Hsame | done].
  - unfold setPaused in H. inv_tx H. subst s'. left.
    split; [done|]. split; [done|]. by apply Hsame.
  - unfold setCooldownSeconds in H. inv_tx H. subst s'. left.
    split; [done|]. split; [done|]. by apply Hsame.
  - unfold openNewBatch in H. inv_tx H. subst s'. right; right.
    cbn. rewrite closeBatch_current. done.
  - unfold submitData in H. inv_tx H. subst s'. right; left. cbn.
    match goal with
    | Hopen : negb (isOpen _) = false |- _ =>
        apply negb_false_iff in Hopen; rewrite Hopen
    end.
    rewrite mread_insert_eq. done.
  - unfold requestAverageDecryption in H. inv_tx H. subst s'. left.
    split; [done|]. split; [done|]. by apply Hsame.
  - unfold myCallback in H. inv_tx H. subst s'. left.
    split; [done|]. split; [done|]. by apply Hsame.
Qed.

(** A batch below the current identifier is out of reach of every
    transaction. *)
Lemma tx_batch_below (s s' : State) (b : N) :
  tx s s' -> b < currentBatchId s -> (batches s').[b] = (batches s).[b].
Proof.
  intros (c & env & H) Hb.
  destruct (exec_batches _ _ _ _ H) as [[_ ->]|[(_ & _ & ->)|[_ ->]]].
  - reflexivity.
  - rewrite mread_insert_ne by lia. reflexivity.
  - rewrite mread_insert_ne by lia. apply closeBatch_mread_ne. lia.
Qed.

Lemma beyond_inv_constructor (env : Env) : beyond_inv (constructor env).
Proof.
  intros b Hb. cbn in *. rewrite lookup_insert_ne by lia. apply lookup_empty.
Qed.

Lemma beyond_inv_exec (c : Call) (s s' : State) (env : Env) :
  beyond_inv s -> exec c s env = Ok s' -> beyond_inv s'.
Proof.
  intros Hinv H b.
  destruct (exec_batches _ _ _ _ H) as [[-> ->]|[(-> & _ & ->)|[-> ->]]];
    intros Hb.
  - by apply Hinv.
  - rewrite lookup_insert_ne by lia. by apply Hinv.
  - rewrite lookup_insert_ne, closeBatch_lookup_ne by lia. apply Hinv. lia.
Qed.

Lemma reachable_beyond_inv (s : State) : reachable s -> beyond_inv s.
Proof.
  induction 1 as [env | s s' _ IH (c & env & Hexec)].
  - apply beyond_inv_constructor.
  - exact (beyond_inv_exec _ _ _ _ IH Hexec).
Qed.

Lemma log_inv_constructor (env : Env) : log_inv (constructor env).
Proof.
  split; [reflexivity|]. split; [reflexivity|]. intros b. cbn.
  destruct (decide (1 = b)) as [<-|Hne].
  - by rewrite mread_insert_eq.
  - by rewrite mread_insert_ne.
Qed.

Lemma log_inv_exec (c : Call) (s s' : State) (env : Env) :
  batch_inv s -> beyond_inv s -> log_inv s -> exec c s env = Ok s' -> log_inv s'.
Proof.
  intros (Hge & Hopen & _) Hbeyond (Hopened & Hclosed & Hitems) H.
  destruct (exec_log _ _ _ _ H)
    as [(Hc & Hb & Ho & Hcl & Hs)|[(Hc & Ho & Hb & He)|(_ & Hc & Hb & He)]];
    unfold log_inv; rewrite Hc, Hb.
  - rewrite Ho, Hcl. split; [done|]. split; [done|]. intros b. by rewrite Hs.
  - rewrite He. unfold opened_ids, closed_ids, submitted_ids in *.
    rewrite !omap_app; cbn. rewrite !app_nil_r.
    split; [done|]. split; [done|]. intros b. rewrite omap_app; cbn.
    destruct (N.eqb_spec (currentBatchId s) b) as [<-|Hne].
    + rewrite mread_insert_eq; cbn. by rewrite ids_upto_succ, Hitems.
    + rewrite mread_insert_ne by exact Hne. by rewrite app_nil_r.
  - rewrite He, closeBatch_events by (by apply Hopen).
    unfold opened_ids, closed_ids, submitted_ids in *.
    rewrite !omap_app; cbn. rewrite !app_nil_r.
    split; [by rewrite ids_upto_succ, Hopened|]. split.
    + rewrite Hclosed.
      replace (currentBatchId s + 1 - 1) with (currentBatchId s - 1 + 1) by lia.
      rewrite ids_upto_succ. do 2 f_equal. lia.
    + intros b. rewrite !omap_app; cbn. rewrite !app_nil_r, Hitems.
      destruct (decide (currentBatchId s + 1 = b)) as [<-|Hne].
      * rewrite mread_insert_eq; cbn.
        assert (Hnone : batches s !! (currentBatchId s + 1) = None)
          by (apply Hbeyond; lia).
        unfold mread. by rewrite Hnone.
      * rewrite mread_insert_ne by exact Hne.
        by rewrite closeBatch_dataCount.
Qed.

Lemma reachable_log_inv (s : State) : reachable s -> log_inv s.
Proof.
  induction 1 as [env | s s' Hs IH (c & env & Hexec)].
  - apply log_inv_constructor.
  - exact (log_inv_exec _ _ _ _ (reachable_batch_inv s Hs)
             (reachable_beyond_inv s Hs) IH Hexec).
Qed.
End Log.

(** ** Transactions and the request table *)

Section Requests.
Context {L : FHE.Lib}.

(** The digest of a batch is a function of its item count. *)
Lemma average_cts_dataCount (id : N) (s s' : State) :
  dataCount (batches s').[id] = dataCount (batches s).[id] ->
  average_cts id s' = average_cts id s.
Proof. intros Heq. by rewrite !average_cts_closed, Heq. Qed.

(** What a committed transaction does to the request table, and what it
    has checked when it does. *)
Lemma exec_contexts_checked (c : Call) (s s' : State) (env : Env) :
  exec c s env = Ok s' ->
  decryptionContexts s' = decryptionContexts s
  \/ (exists id cts,
        c = CallRequestAverageDecryption id
        /\ paused s = false
        /\ _isValidBatchForAnalysis id s = true
        /\ average_cts id s = Ok cts
        /\ batches s' = batches s
        /\ currentBatchId s' = currentBatchId s
        /\ decryptionContexts s' =
             <[oracle_requestId env :=
                 {| batchId := id; stateHash := _hashCiphertexts cts;
                    processed := false |}]> (decryptionContexts s))
  \/ (exists requestId cleartexts proof,
        c = CallMyCallback requestId cleartexts proof
        /\ processed (decryptionContexts s).[requestId] = false
        /\ batches s' = batches s
        /\ currentBatchId s' = currentBatchId s
        /\ decryptionContexts s' =
             <[requestId :=
                 {| batchId := batchId (decryptionContexts s).[requestId];
                    stateHash := stateHash (decryptionContexts s).[requestId];
                    processed := true |}]> (decryptionContexts s)).
Proof.
  intros H. destruct c; cbn [exec] in H.
  - unfold transferOwnership in H. inv_tx H. subst s'. by left.
  - unfold addProvider in H. inv_tx H; subst s'; by left.
  - unfold removeProvider in H. inv_tx H; subst s'; by left.
  - unfold setPaused in H. inv_tx H. subst s'. by left.
  - unfold setCooldownSeconds in H. inv_tx H. subst s'. by left.
  - unfold openNewBatch in H. inv_tx H. subst s'. left. cbn.
    unfold _closeBatch. destruct (_ && _); reflexivity.
  - unfold submitData in H. inv_tx H. subst s'. by left.
  - unfold requestAverageDecryption, whenNotPaused in H. inv_tx H. subst s'.
    right; left. eexists _, _. split; [reflexivity|].
    split; [assumption|].
    split; [by apply negb_false_iff|].
    split; [eassumption|]. cbn. done.
  - unfold myCallback in H. inv_tx H. subst s'.
    right; right. eexists _, _, _. split; [reflexivity|].
    split; [assumption|]. cbn. done.
Qed.

Lemma contexts_inv_constructor (env : Env) : contexts_inv (constructor env).
Proof. intros requestId ctx Hctx. cbn in Hctx. by rewrite lookup_empty in Hctx. Qed.

Lemma contexts_inv_exec (c : Call) (s s' : State) (env : Env) :
  batch_inv s -> contexts_inv s -> exec c s env = Ok s' -> contexts_inv s'.
Proof.
  intros (Hge & Hopen & _) Hinv H.
  assert (Htx : tx s s') by (by exists c, env).
  pose proof (fun b => tx_batch_below s s' b Htx) as Hbelow.
  assert (Hmono : currentBatchId s <= currentBatchId s')
    by (destruct (tx_currentBatchId _ _ Htx); lia).
  assert (Hkeep : forall ctx,
            0 < batchId ctx < currentBatchId s
            /\ 0 < dataCount (batches s).[batchId ctx]
            /\ (exists cts, average_cts (batchId ctx) s = Ok cts
                            /\ _hashCiphertexts cts = stateHash ctx) ->
            0 < batchId ctx < currentBatchId s'
            /\ 0 < dataCount (batches s').[batchId ctx]
            /\ (exists cts, average_cts (batchId ctx) s' = Ok cts
                            /\ _hashCiphertexts cts = stateHash ctx)).
  { intros ctx ([Hpos Hlt] & Hcount & cts & Hcts & Hhash).
    split; [lia|]. rewrite (Hbelow _ Hlt). split; [exact Hcount|].
    exists cts. split; [|exact Hhash].
    rewrite <- Hcts. apply average_cts_dataCount. by rewrite (Hbelow _ Hlt). }
  intros requestId ctx Hctx Hpending.
  destruct (exec_contexts_checked _ _ _ _ H)
    as [Hsame|[(id & cts & _ & _ & Hvalid & Hcts & Hb & Hc & Hnew)
              |(r & cl & pr & _ & _ & Hb & Hc & Hnew)]].
  - rewrite Hsame in Hctx. apply Hkeep. by apply (Hinv requestId).
  - rewrite Hnew in Hctx.
    destruct (decide (oracle_requestId env = requestId)) as [Heq|Hne].
    + rewrite Heq, lookup_insert_eq in Hctx. injection Hctx as <-. cbn.
      unfold _isValidBatchForAnalysis in Hvalid.
      rewrite !andb_true_iff, N.leb_le, !N.ltb_lt, negb_true_iff in Hvalid.
      destruct Hvalid as (((Hle & Hpos) & Hclosed) & Hcount).
      assert (Hne : id <> currentBatchId s).
      { intros Heq'. apply Hopen in Heq'. congruence. }
      rewrite Hb, Hc. split; [lia|]. split; [exact Hcount|].
      exists cts. split; [|reflexivity].
      rewrite <- Hcts. apply average_cts_dataCount. by rewrite Hb.
    + rewrite lookup_insert_ne in Hctx by exact Hne.
      apply Hkeep. by apply (Hinv requestId).
  - rewrite Hnew in Hctx.
    destruct (decide (r = requestId)) as [Heq|Hne].
    + rewrite Heq, lookup_insert_eq in Hctx. injection Hctx as <-. discriminate.
    + rewrite lookup_insert_ne in Hctx by exact Hne.
      apply Hkeep. by apply (Hinv requestId).
Qed.

Lemma reachable_contexts_inv (s : State) : reachable s -> contexts_inv s.
Proof.
  induction 1 as [env | s s' Hs IH (c & env & Hexec)].
  - apply contexts_inv_constructor.
  - exact (contexts_inv_exec _ _ _ _ (reachable_batch_inv s Hs) IH Hexec).
Qed.
End Requests.

(** ** Roles and switches *)

Section Roles.
Context {L : FHE.Lib}.

Lemma onlyOwner_owner (s : State) (env : Env) :
  msg_sender env = owner s -> onlyOwner s env = Ok tt.
Proof. intros Heq. unfold onlyOwner. by rewrite Heq, N.eqb_refl. Qed.

Lemma onlyOwner_other (s : State) (env : Env) :
  msg_sender env <> owner s -> onlyOwner s env = Revert NotOwner.
Proof.
  intros Hne. unfold onlyOwner. apply N.eqb_neq in Hne. by rewrite Hne.
Qed.

Lemma owner_only_reverts (c : Call) (s : State) (env : Env) :
  owner_only c = true -> msg_sender env <> owner s ->
  exec c s env = Revert NotOwner.
Proof.
  intros Hc Hne. pose proof (onlyOwner_other s env Hne) as Hgate.
  destruct c; try discriminate Hc; cbn [exec];
    unfold transferOwnership, addProvider, removeProvider, setPaused,
      setCooldownSeconds, openNewBatch;
    by rewrite Hgate.
Qed.

(** X1.  Each of the six functions under [onlyOwner] (ownership transfer,
    adding and removing a provider, pausing, setting the cooldown, batch
    rotation) reverts with NotOwner for a caller other than the owner,
    whatever its arguments and whatever the storage holds. *)
Theorem X1_owner_only (c : Call) (s : State) (env : Env)
    (Hc : owner_only c = true) (Hne : msg_sender env <> owner s) :
  exec c s env = Revert NotOwner.
Proof. exact (owner_only_reverts c s env Hc Hne). Qed.

(** X2.  A transaction sent by anyone but the owner, if it commits, leaves
    the owner, the provider set, the pause flag, the cooldown and the
    current batch identifier as they were, and opens or closes no batch. *)
Theorem X2_non_owner_frame (c : Call) (s s' : State) (env : Env)
    (Hexec : exec c s env = Ok s') (Hne : msg_sender env <> owner s) :
  owner s' = owner s
  /\ isProvider s' = isProvider s
  /\ paused s' = paused s
  /\ cooldownSeconds s' = cooldownSeconds s
  /\ currentBatchId s' = currentBatchId s
  /\ forall b, isOpen (batches s').[b] = isOpen (batches s).[b].
Proof.
  destruct (owner_only c) eqn:Hc.
  { rewrite (owner_only_reverts c s env Hc Hne) in Hexec. discriminate. }
  destruct c; try discriminate Hc; cbn [exec] in Hexec.
  - unfold submitData in Hexec. inv_tx Hexec. subst s'. cbn.
    repeat split; try reflexivity. intros b.
    match goal with
    | Hopen : negb (isOpen _) = false |- _ => apply negb_false_iff in Hopen
    end.
    destruct (decide (currentBatchId s = b)) as [<-|Hb].
    + by rewrite mread_insert_eq.
    + by rewrite mread_insert_ne.
  - unfold requestAverageDecryption in Hexec. inv_tx Hexec. subst s'. done.
  - unfold myCallback in Hexec. inv_tx Hexec. subst s'. done.
Qed.

Lemma exec_cooldown (c : Call) (s s' : State) (env : Env) :
  exec c s env = Ok s' ->
  cooldownSeconds s' = cooldownSeconds s \/ 0 < cooldownSeconds s'.
Proof.
  intros H. destruct c; cbn [exec] in H.
  - unfold transferOwnership in H. inv_tx H. subst s'. by left.
  - unfold addProvider in H. inv_tx H; subst s'; by left.
  - unfold removeProvider in H. inv_tx H; subst s'; by left.
  - unfold setPaused in H. inv_tx H. subst s'. by left.
  - unfold setCooldownSeconds in H. inv_tx H. subst s'. right. cbn.
    match goal with Hz : (_ =? 0) = false |- _ => apply N.eqb_neq in Hz end.
    lia.
  - unfold openNewBatch in H. inv_tx H. subst s'. left. cbn.
    unfold _closeBatch. destruct (_ && _); reflexivity.
  - unfold submitData in H. inv_tx H. subst s'. by left.
  - unfold requestAverageDecryption in H. inv_tx H. subst s'. by left.
  - unfold myCallback in H. inv_tx H. subst s'. by left.
Qed.

Lemma reachable_cooldown (s : State) : reachable s -> 0 < cooldownSeconds s.
Proof.
  induction 1 as [env | s s' _ IH (c & env & Hexec)].
  - cbn. lia.
  - destruct (exec_cooldown _ _ _ _ Hexec) as [->|Hpos]; assumption.
Qed.

Lemma submitData_cooling (d : N) (s : State) (env : Env) :
  (isProvider s).[msg_sender env] = true ->
  paused s = false ->
  block_timestamp env < (lastSubmissionTime s).[msg_sender env] + cooldownSeconds s ->
  submitData d s env = Revert CooldownActive
  \/ submitData d s env = Revert (Panic ARITHMETIC_OVERFLOW).
Proof.
  intros Hprov Hrun Hlt. unfold submitData, onlyProvider, whenNotPaused.
  rewrite Hprov, Hrun; cbn [negb revert_if bind].
  destruct (N.le_gt_cases
              ((lastSubmissionTime s).[msg_sender env] + cooldownSeconds s)
              MAX_UINT256) as [Hfit|Hover].
  - left. rewrite checked_add_fits by exact Hfit. cbn [bind].
    apply N.ltb_lt in Hlt. by rewrite Hlt.
  - right. by rewrite checked_add_overflow.
Qed.

(** X3.  The cooldown is positive in every reachable storage: it is 60
    after construction and setCooldownSeconds refuses zero with
    InvalidCooldown (after the owner check).  Hence a provider whose
    submission was just accepted is refused at the same timestamp. *)
Theorem X3_cooldown_positive (s : State) (Hreach : reachable s) :
  0 < cooldownSeconds s
  /\ (forall env,
        setCooldownSeconds 0 s env =
          Revert (if msg_sender env =? owner s then InvalidCooldown else NotOwner))
  /\ (forall d d' env s1,
        submitData d s env = Ok s1 ->
        submitData d' s1 env = Revert CooldownActive
        \/ submitData d' s1 env = Revert (Panic ARITHMETIC_OVERFLOW)).
Proof.
  pose proof (reachable_cooldown s Hreach) as Hpos.
  split; [exact Hpos|]. split.
  - intros env. unfold setCooldownSeconds, onlyOwner.
    destruct (msg_sender env =? owner s); reflexivity.
  - intros d d' env s1 H. unfold submitData in H. inv_tx H. subst s1.
    apply submitData_cooling.
    + cbn. by apply negb_false_iff.
    + assumption.
    + cbn. rewrite mread_insert_eq. lia.
Qed.

(** X4.  For the owner, addProvider and removeProvider always commit, set
    the status of the named address and of no other, and are idempotent:
    on an address already in the target status they change nothing and log
    nothing, so a repeated call returns the storage it was given. *)
Theorem X4_provider_idempotent (p : N) (s : State) (env : Env)
    (Howner : msg_sender env = owner s) :
  (exists s1,
      addProvider p s env = Ok s1
      /\ (isProvider s1).[p] = true
      /\ (forall q, q <> p -> (isProvider s1).[q] = (isProvider s).[q])
      /\ ((isProvider s).[p] = true -> s1 = s)
      /\ addProvider p s1 env = Ok s1)
  /\ (exists s1,
        removeProvider p s env = Ok s1
        /\ (isProvider s1).[p] = false
        /\ (forall q, q <> p -> (isProvider s1).[q] = (isProvider s).[q])
        /\ ((isProvider s).[p] = false -> s1 = s)
        /\ removeProvider p s1 env = Ok s1).
Proof.
  pose proof (onlyOwner_owner s env Howner) as Hgate.
  split.
  - unfold addProvider at 1. rewrite Hgate; cbn [bind].
    destruct ((isProvider s).[p]) eqn:Hp; cbn [negb]; eexists;
      (split; [reflexivity|]).
    + split; [exact Hp|]. split; [done|]. split; [done|].
      unfold addProvider. by rewrite Hgate, Hp.
    + split; [cbn; by rewrite mread_insert_eq|].
      split; [intros q Hq; cbn; by rewrite mread_insert_ne|].
      split; [discriminate|].
      unfold addProvider, onlyOwner. cbn. rewrite Howner, N.eqb_refl.
      cbn. by rewrite mread_insert_eq.
  - unfold removeProvider at 1. rewrite Hgate; cbn [bind].
    destruct ((isProvider s).[p]) eqn:Hp; eexists; (split; [reflexivity|]).
    + split; [cbn; by rewrite mread_insert_eq|].
      split; [intros q Hq; cbn; by rewrite mread_insert_ne|].
      split; [discriminate|].
      unfold removeProvider, onlyOwner. cbn. rewrite Howner, N.eqb_refl.
      cbn. by rewrite mread_insert_eq.
    + split; [exact Hp|]. split; [done|]. split; [done|].
      unfold removeProvider. by rewrite Hgate, Hp.
Qed.

(** X5.  transferOwnership moves the owner check and nothing else: the
    provider set is untouched, so a new owner who is no provider cannot
    submit, and the previous owner, no longer passing [onlyOwner], keeps
    the provider status it had. *)
Theorem X5_ownership_without_provider_role
    (newOwner : N) (s s' : State) (env : Env)
    (Hexec : transferOwnership newOwner s env = Ok s') :
  owner s' = newOwner
  /\ isProvider s' = isProvider s
  /\ ((isProvider s).[newOwner] = false ->
      forall d env', msg_sender env' = newOwner ->
        submitData d s' env' = Revert NotProvider)
  /\ (newOwner <> owner s ->
      forall c env', owner_only c = true -> msg_sender env' = owner s ->
        exec c s' env' = Revert NotOwner).
Proof.
  unfold transferOwnership in Hexec. inv_tx Hexec. subst s'. cbn.
  split; [reflexivity|]. split; [reflexivity|]. split.
  - intros Hnp d env' Hsender. unfold submitData, onlyProvider. cbn.
    by rewrite Hsender, Hnp.
  - intros Hne c env' Hc Hsender. apply owner_only_reverts; [exact Hc|].
    cbn. congruence.
Qed.
End Roles.

(** ** The life of a batch *)

Section Batches.
Context {L : FHE.Lib}.

Lemma txs_batch_below (s s' : State) (b : N) :
  rtc tx s s' -> b < currentBatchId s ->
  (batches s').[b] = (batches s).[b] /\ b < currentBatchId s'.
Proof.
  intros Htxs Hb. induction Htxs as [|s s' s'' Htx _ IH]; [done|].
  pose proof (tx_batch_below s s' b Htx Hb) as Hsame.
  destruct (tx_currentBatchId _ _ Htx) as [Hc|Hc];
    (destruct IH as [IH1 IH2]; [lia|]); split; congruence || exact IH2.
Qed.

(** X6.  A batch whose identifier is below the current one is immutable:
    through any sequence of committed transactions its record (closed flag
    and item count) stays exactly as it is, and it stays below the current
    identifier. *)
Theorem X6_closed_batches_frozen (s s' : State) (b : N)
    (Htxs : rtc tx s s') (Hb : b < currentBatchId s) :
  (batches s').[b] = (batches s).[b] /\ b < currentBatchId s'.
Proof. exact (txs_batch_below s s' b Htxs Hb). Qed.

Lemma tx_dataCount (s s' : State) (b : N) :
  beyond_inv s -> tx s s' ->
  dataCount (batches s).[b] <= dataCount (batches s').[b].
Proof.
  intros Hbeyond (c & env & H).
  destruct (exec_batches _ _ _ _ H) as [[_ ->]|[(_ & _ & ->)|[_ ->]]].
  - lia.
  - destruct (decide (currentBatchId s = b)) as [<-|Hne].
    + rewrite mread_insert_eq. cbn. lia.
    + rewrite mread_insert_ne by exact Hne. lia.
  - destruct (decide (currentBatchId s + 1 = b)) as [<-|Hne].
    + assert (Hnone : batches s !! (currentBatchId s + 1) = None)
        by (apply Hbeyond; lia).
      unfold mread at 1. rewrite Hnone. cbn. lia.
    + rewrite mread_insert_ne, closeBatch_dataCount by exact Hne. lia.
Qed.

(** X7.  From a reachable storage on, through any sequence of committed
    transactions, no batch's item count ever decreases. *)
Theorem X7_item_count_monotone (s s' : State) (b : N)
    (Hreach : reachable s) (Htxs : rtc tx s s') :
  dataCount (batches s).[b] <= dataCount (batches s').[b].
Proof.
  induction Htxs as [|s s' s'' Htx _ IH]; [lia|].
  pose proof (tx_dataCount s s' b (reachable_beyond_inv s Hreach) Htx).
  specialize (IH (reachable_tx _ _ Hreach Htx)). lia.
Qed.

(** X8.  In every reachable storage the log accounts for the batch table:
    the BatchOpened events carry the identifiers 1, 2, ..., currentBatchId
    in this order, the BatchClosed events the identifiers 1, ...,
    currentBatchId - 1, and the DataSubmitted events of each batch carry
    the item numbers 1, ..., dataCount of that batch. *)
Theorem X8_log_accounts_for_batches (s : State) (Hreach : reachable s) :
  opened_ids (events s) = ids_upto (currentBatchId s)
  /\ closed_ids (events s) = ids_upto (currentBatchId s - 1)
  /\ forall b, submitted_ids b (events s) = ids_upto (dataCount (batches s).[b]).
Proof. exact (reachable_log_inv s Hreach). Qed.

(** X9.  In a reachable storage the owner's rotation, when not paused,
    commits as long as the identifier can be incremented: it closes the
    current batch keeping its item count, opens the successor empty, logs
    BatchClosed then BatchOpened, and leaves the closed batch valid for
    analysis exactly when it holds an item.  At the largest identifier it
    reverts with the overflow panic. *)
Theorem X9_rotation (s : State) (env : Env)
    (Hreach : reachable s) (Howner : msg_sender env = owner s)
    (Hrun : paused s = false) :
  (currentBatchId s < MAX_UINT256 ->
   exists s',
     openNewBatch s env = Ok s'
     /\ currentBatchId s' = currentBatchId s + 1
     /\ (batches s').[currentBatchId s] =
          {| isOpen := false; dataCount := dataCount (batches s).[currentBatchId s] |}
     /\ (batches s').[currentBatchId s + 1] = {| isOpen := true; dataCount := 0 |}
     /\ events s' =
          events s ++ [BatchClosed (currentBatchId s);
                       BatchOpened (currentBatchId s + 1)]
     /\ _isValidBatchForAnalysis (currentBatchId s) s'
        = (0 <? dataCount (batches s).[currentBatchId s]))
  /\ (MAX_UINT256 <= currentBatchId s ->
      openNewBatch s env = Revert (Panic ARITHMETIC_OVERFLOW)).
Proof.
  destruct (reachable_batch_inv s Hreach) as (Hge & Hopen & _).
  assert (Hcur : isOpen (batches s).[currentBatchId s] = true) by (by apply Hopen).
  unfold openNewBatch. rewrite (onlyOwner_owner s env Howner); cbn [bind].
  unfold whenNotPaused. rewrite Hrun; cbn [revert_if bind].
  rewrite closeBatch_current. split.
  - intros Hroom. rewrite checked_add_fits by lia. cbn [bind].
    eexists. split; [reflexivity|].
    cbn [currentBatchId batches events set_currentBatchId _openBatch emit set_batches].
    assert (Hclosed :
      (batches (_closeBatch (currentBatchId s) s)).[currentBatchId s]
      = {| isOpen := false; dataCount := dataCount (batches s).[currentBatchId s] |}).
    { unfold _closeBatch. rewrite N.leb_refl, Hcur. cbn. by rewrite mread_insert_eq. }
    split; [reflexivity|].
    split; [rewrite mread_insert_ne by lia; exact Hclosed|].
    split; [by rewrite mread_insert_eq|].
    split; [rewrite closeBatch_events by exact Hcur; by rewrite <- app_assoc|].
    unfold _isValidBatchForAnalysis.
    cbn [currentBatchId batches events set_currentBatchId _openBatch emit set_batches].
    rewrite mread_insert_ne, Hclosed by lia. cbn [isOpen dataCount negb].
    replace (currentBatchId s <=? currentBatchId s + 1) with true
      by (symmetry; apply N.leb_le; lia).
    replace (0 <? currentBatchId s) with true
      by (symmetry; apply N.ltb_lt; lia).
    reflexivity.
  - intros Hfull. by rewrite checked_add_overflow by lia.
Qed.

(** X10.  In a reachable storage submitData never fails with
    BatchClosedOrInvalid: the current batch is always open, so the check
    on it cannot fire. *)
Theorem X10_submit_never_batch_closed (d : N) (s : State) (env : Env)
    (Hreach : reachable s) :
  submitData d s env <> Revert BatchClosedOrInvalid.
Proof.
  destruct (reachable_batch_inv s Hreach) as (_ & Hopen & _).
  assert (Hcur : isOpen (batches s).[currentBatchId s] = true) by (by apply Hopen).
  unfold submitData, onlyProvider, whenNotPaused.
  destruct ((isProvider s).[msg_sender env]); cbn [negb revert_if bind];
    [|discriminate].
  destruct (paused s); cbn [revert_if bind]; [discriminate|].
  unfold checked_add at 1. destruct (_ <=? MAX_UINT256); cbn [bind];
    [|discriminate].
  destruct (_ <? _); cbn [revert_if bind]; [discriminate|].
  rewrite Hcur; cbn [negb revert_if bind].
  unfold checked_add. destruct (_ <=? MAX_UINT256); cbn [bind]; discriminate.
Qed.

Lemma exec_times (c : Call) (s s' : State) (env : Env) (a : N) :
  exec c s env = Ok s' ->
  (lastSubmissionTime s).[a] <= (lastSubmissionTime s').[a]
  /\ (lastDecryptionRequestTime s).[a] <= (lastDecryptionRequestTime s').[a].
Proof.
  intros H. destruct c; cbn [exec] in H.
  - unfold transferOwnership in H. inv_tx H. subst s'. cbn. lia.
  - unfold addProvider in H. inv_tx H; subst s'; cbn; lia.
  - unfold removeProvider in H. inv_tx H; subst s'; cbn; lia.
  - unfold setPaused in H. inv_tx H. subst s'. cbn. lia.
  - unfold setCooldownSeconds in H. inv_tx H. subst s'. cbn. lia.
  - unfold openNewBatch in H. inv_tx H. subst s'. cbn.
    unfold _closeBatch. destruct (_ && _); cbn; lia.
  - unfold submitData in H. inv_tx H. subst s'. cbn.
    match goal with Hc : (_ <? _) = false |- _ => apply N.ltb_ge in Hc end.
    destruct (decide (msg_sender env = a)) as [<-|Hne].
    + rewrite mread_insert_eq. lia.
    + rewrite mread_insert_ne by exact Hne. lia.
  - unfold requestAverageDecryption in H. inv_tx H. subst s'. cbn.
    match goal with Hc : (_ <? _) = false |- _ => apply N.ltb_ge in Hc end.
    destruct (decide (msg_sender env = a)) as [<-|Hne].
    + rewrite mread_insert_eq. lia.
    + rewrite mread_insert_ne by exact Hne. lia.
  - unfold myCallback in H. inv_tx H. subst s'. cbn. lia.
Qed.

(** X11.  The last submission time and the last request time of every
    address never decrease, through any sequence of committed
    transactions with whatever timestamps. *)
Theorem X11_last_action_times_monotone (s s' : State) (a : N)
    (Htxs : rtc tx s s') :
  (lastSubmissionTime s).[a] <= (lastSubmissionTime s').[a]
  /\ (lastDecryptionRequestTime s).[a] <= (lastDecryptionRequestTime s').[a].
Proof.
  induction Htxs as [|s s' s'' (c & env & H) _ IH]; [lia|].
  pose proof (exec_times c s s' env a H). lia.
Qed.

(** X12.  While the contract is paused no submission, rotation or request
    commits: a committed transaction is an owner's administrative call or
    a callback, and it leaves the batch table, the current identifier and
    both tables of action times as they were. *)
Theorem X12_paused_freezes_intake (c : Call) (s s' : State) (env : Env)
    (Hpaused : paused s = true) (Hexec : exec c s env = Ok s') :
  match c with
  | CallSubmitData _ | CallOpenNewBatch | CallRequestAverageDecryption _ => False
  | _ => True
  end
  /\ batches s' = batches s
  /\ currentBatchId s' = currentBatchId s
  /\ lastSubmissionTime s' = lastSubmissionTime s
  /\ lastDecryptionRequestTime s' = lastDecryptionRequestTime s.
Proof.
  destruct c; cbn [exec] in Hexec.
  - unfold transferOwnership in Hexec. inv_tx Hexec. subst s'. done.
  - unfold addProvider in Hexec. inv_tx Hexec; subst s'; done.
  - unfold removeProvider in Hexec. inv_tx Hexec; subst s'; done.
  - unfold setPaused in Hexec. inv_tx Hexec. subst s'. done.
  - unfold setCooldownSeconds in Hexec. inv_tx Hexec. subst s'. done.
  - unfold openNewBatch, whenNotPaused in Hexec. inv_tx Hexec. congruence.
  - unfold submitData, whenNotPaused in Hexec. inv_tx Hexec. congruence.
  - unfold requestAverageDecryption, whenNotPaused in Hexec. inv_tx Hexec.
    congruence.
  - unfold myCallback in Hexec. inv_tx Hexec. subst s'. done.
Qed.
End Batches.

(** ** The life of a request *)

Section Lifecycle.
Context {L : FHE.Lib}.

Lemma abi_decode_long (data : bytes) :
  (32 <= length data)%nat -> abi_decode_uint256 data = Ok (be_to_N (take 32 data)).
Proof.
  intros Hlen. unfold abi_decode_uint256.
  destruct (Nat.ltb_spec (length data) 32); [lia | reflexivity].
Qed.

(** A callback on a context that is not processed and whose digest is the
    one the storage gives. *)
Lemma myCallback_matching (requestId : N) (cleartexts proof : bytes)
    (s : State) (env : Env) (cts : list bytes32) :
  processed (decryptionContexts s).[requestId] = false ->
  average_cts (batchId (decryptionContexts s).[requestId]) s = Ok cts ->
  _hashCiphertexts cts = stateHash (decryptionContexts s).[requestId] ->
  myCallback requestId cleartexts proof s env =
    if FHE.checkSignatures requestId cleartexts proof then
      average <- abi_decode_uint256 cleartexts ;;
      Ok (emit (DecryptionCompleted requestId
                  (batchId (decryptionContexts s).[requestId]) average)
            (set_decryptionContexts
               (<[requestId :=
                    {| batchId := batchId (decryptionContexts s).[requestId];
                       stateHash := stateHash (decryptionContexts s).[requestId];
                       processed := true |}]> (decryptionContexts s)) s))
    else Revert InvalidProof.
Proof.
  intros Hpending Hcts Hhash. unfold myCallback.
  rewrite Hpending; cbn [revert_if bind]. rewrite Hcts; cbn [bind].
  rewrite Hhash, N.eqb_refl; cbn [negb revert_if bind].
  destruct (FHE.checkSignatures requestId cleartexts proof); reflexivity.
Qed.

(** X13.  In a reachable storage every stored request that is not yet
    processed names a closed, non-empty batch that is valid for analysis,
    and its stored digest equals the one recomputed from the storage.  A
    callback for it can therefore fail in two ways only: the proof is
    rejected (InvalidProof) or the cleartext is shorter than 32 bytes;
    StateMismatch is out of reach. *)
Theorem X13_pending_request_consistent
    (s : State) (requestId : N) (ctx : DecryptionContext)
    (Hreach : reachable s)
    (Hstored : decryptionContexts s !! requestId = Some ctx)
    (Hpending : processed ctx = false) :
  _isValidBatchForAnalysis (batchId ctx) s = true
  /\ batchId ctx < currentBatchId s
  /\ (exists cts, average_cts (batchId ctx) s = Ok cts
                  /\ _hashCiphertexts cts = stateHash ctx)
  /\ forall cleartexts proof env e,
       myCallback requestId cleartexts proof s env = Revert e ->
       e = InvalidProof \/ e = DecodeRevert.
Proof.
  destruct (reachable_batch_inv s Hreach) as (_ & Hopen & _).
  destruct (reachable_contexts_inv s Hreach requestId ctx Hstored Hpending)
    as ([Hpos Hlt] & Hcount & cts & Hcts & Hhash).
  split; [|split; [exact Hlt|split; [by exists cts|]]].
  - unfold _isValidBatchForAnalysis.
    rewrite !andb_true_iff, N.leb_le, !N.ltb_lt, negb_true_iff.
    repeat split; try lia.
    destruct (isOpen (batches s).[batchId ctx]) eqn:Hb; [|reflexivity].
    apply Hopen in Hb. lia.
  - intros cleartexts proof env e.
    rewrite (myCallback_matching requestId cleartexts proof s env cts)
      by (rewrite (mread_Some _ _ _ Hstored); assumption).
    destruct (FHE.checkSignatures requestId cleartexts proof);
      [|intros [= <-]; by left].
    unfold abi_decode_uint256. destruct (_ <? _)%nat; cbn [bind];
      [intros [= <-]; by right | discriminate].
Qed.

(** X14.  In a reachable storage a stored request that is not processed
    can always be completed: a callback with a proof the library accepts
    and a cleartext of at least 32 bytes commits, whoever sends it, marks
    the request processed, logs DecryptionCompleted with the value of the
    first 32 bytes, and leaves the batch table alone. *)
Theorem X14_pending_request_fulfillable
    (s : State) (env : Env) (requestId : N) (cleartexts proof : bytes)
    (ctx : DecryptionContext)
    (Hreach : reachable s)
    (Hstored : decryptionContexts s !! requestId = Some ctx)
    (Hpending : processed ctx = false)
    (Hproof : FHE.checkSignatures requestId cleartexts proof = true)
    (Hlen : (32 <= length cleartexts)%nat) :
  exists s',
    myCallback requestId cleartexts proof s env = Ok s'
    /\ decryptionContexts s' !! requestId =
         Some {| batchId := batchId ctx; stateHash := stateHash ctx;
                 processed := true |}
    /\ events s' =
         events s ++ [DecryptionCompleted requestId (batchId ctx)
                        (be_to_N (take 32 cleartexts))]
    /\ batches s' = batches s
    /\ currentBatchId s' = currentBatchId s.
Proof.
  destruct (reachable_contexts_inv s Hreach requestId ctx Hstored Hpending)
    as (_ & _ & cts & Hcts & Hhash).
  rewrite (myCallback_matching requestId cleartexts proof s env cts)
    by (rewrite (mread_Some _ _ _ Hstored); assumption).
  rewrite Hproof, (abi_decode_long _ Hlen); cbn [bind].
  eexists. split; [reflexivity|]. cbn.
  rewrite (mread_Some _ _ _ Hstored), lookup_insert_eq. done.
Qed.

(** X15.  A committed request stores, under the identifier the oracle
    returned and whatever was stored there before, an unprocessed context
    for its batch; a callback for that identifier with an accepted proof
    and at least 32 bytes of cleartext then commits on the resulting
    storage, and the two transactions together add exactly the
    DecryptionRequested and DecryptionCompleted events and leave the batch
    table as it was. *)
Theorem X15_request_then_callback
    (id : N) (s s1 : State) (env env' : Env) (cleartexts proof : bytes)
    (Hrequest : requestAverageDecryption id s env = Ok s1)
    (Hproof : FHE.checkSignatures (oracle_requestId env) cleartexts proof = true)
    (Hlen : (32 <= length cleartexts)%nat) :
  batchId (decryptionContexts s1).[oracle_requestId env] = id
  /\ processed (decryptionContexts s1).[oracle_requestId env] = false
  /\ exists s2,
       myCallback (oracle_requestId env) cleartexts proof s1 env' = Ok s2
       /\ processed (decryptionContexts s2).[oracle_requestId env] = true
       /\ events s2 =
            events s ++ [DecryptionRequested (oracle_requestId env) id;
                         DecryptionCompleted (oracle_requestId env) id
                           (be_to_N (take 32 cleartexts))]
       /\ batches s2 = batches s.
Proof.
  unfold requestAverageDecryption in Hrequest. inv_tx Hrequest.
  match goal with
  | Hc : average_cts id _ = Ok ?c |- _ => rename Hc into Hcts; rename c into cts
  end.
  assert (Hev : events s1 = events s ++ [DecryptionRequested (oracle_requestId env) id])
    by (by subst s1).
  assert (Hb : batches s1 = batches s) by (by subst s1).
  assert (Hrd : (decryptionContexts s1).[oracle_requestId env]
                = {| batchId := id; stateHash := _hashCiphertexts cts;
                     processed := false |})
    by (subst s1; cbn; apply mread_insert_eq).
  clear Hrequest.
  split; [by rewrite Hrd|]. split; [by rewrite Hrd|].
  rewrite (myCallback_matching _ cleartexts proof s1 env' cts).
  - rewrite Hproof, (abi_decode_long _ Hlen); cbn [bind].
    eexists. split; [reflexivity|]. cbn.
    rewrite mread_insert_eq, Hrd, Hev, <- app_assoc. done.
  - by rewrite Hrd.
  - rewrite Hrd. cbn. rewrite <- Hcts. apply average_cts_dataCount. by rewrite Hb.
  - by rewrite Hrd.
Qed.
End Lifecycle.

(** ** What the callback and the validity check do not depend on *)

Section Independence.
Context {L : FHE.Lib}.

(** X16.  myCallback has no modifier and reads neither the sender, the
    timestamp nor the pause flag: on two storages that differ in the pause
    flag only, and for any two environments, it fails with the same error
    or commits to storages that again differ in the pause flag only.  A
    pending request can thus be completed by any address, paused or not. *)
Theorem X16_callback_ignores_caller_and_pause
    (requestId : N) (cleartexts proof : bytes) (s : State) (env env' : Env)
    (p : bool) :
  myCallback requestId cleartexts proof (set_paused p s) env' =
    match myCallback requestId cleartexts proof s env with
    | Ok s' => Ok (set_paused p s')
    | Revert e => Revert e
    end.
Proof.
  unfold myCallback. cbn [decryptionContexts set_paused].
  destruct (processed (decryptionContexts s).[requestId]);
    cbn [revert_if bind]; [reflexivity|].
  rewrite (average_cts_dataCount _ s (set_paused p s)) by reflexivity.
  destruct (average_cts _ s) as [cts|e]; cbn [bind]; [|reflexivity].
  destruct (negb _); cbn [revert_if bind]; [reflexivity|].
  destruct (negb _); cbn [revert_if bind]; [reflexivity|].
  destruct (abi_decode_uint256 cleartexts); reflexivity.
Qed.

Lemma step_context (s s' : State) (requestId : N) (ctx : DecryptionContext) :
  step s s' ->
  decryptionContexts s !! requestId = Some ctx ->
  exists ctx',
    decryptionContexts s' !! requestId = Some ctx'
    /\ batchId ctx' = batchId ctx
    /\ stateHash ctx' = stateHash ctx
    /\ (processed ctx = true -> processed ctx' = true).
Proof.
  intros (c & env & Hfresh & H) Hctx.
  destruct (exec_contexts _ _ _ _ H) as [->|[(id & h & ->)|(r & ->)]].
  - by exists ctx.
  - exists ctx. rewrite lookup_insert_ne; [done|].
    intros Heq. unfold oracle_fresh in Hfresh. congruence.
  - destruct (decide (r = requestId)) as [->|Hne].
    + rewrite lookup_insert_eq, (mread_Some _ _ _ Hctx). by eexists.
    + exists ctx. by rewrite lookup_insert_ne.
Qed.

(** X17.  The request table only grows: while the oracle returns each
    identifier once, a stored context is never removed, its batch and its
    digest never change, and its processed flag is never cleared, through
    any sequence of committed transactions. *)
Theorem X17_contexts_persist
    (s s' : State) (requestId : N) (ctx : DecryptionContext)
    (Hsteps : rtc step s s')
    (Hstored : decryptionContexts s !! requestId = Some ctx) :
  exists ctx',
    decryptionContexts s' !! requestId = Some ctx'
    /\ batchId ctx' = batchId ctx
    /\ stateHash ctx' = stateHash ctx
    /\ (processed ctx = true -> processed ctx' = true).
Proof.
  revert ctx Hstored. induction Hsteps as [|s s' s'' Hstep _ IH]; intros ctx Hstored.
  - by exists ctx.
  - destruct (step_context s s' requestId ctx Hstep Hstored)
      as (ctx1 & H1 & Hb1 & Hh1 & Hp1).
    destruct (IH ctx1 H1) as (ctx2 & H2 & Hb2 & Hh2 & Hp2).
    exists ctx2. split; [exact H2|]. split; [congruence|]. split; [congruence|].
    auto.
Qed.

(** X18.  In a reachable storage a batch is valid for analysis exactly
    when its identifier is positive and below the current one and it holds
    an item.  For a batch below the current identifier the answer is
    settled: no sequence of committed transactions changes it, so a batch
    closed empty never becomes valid. *)
Theorem X18_validity_settled (s : State) (Hreach : reachable s) :
  (forall id,
     _isValidBatchForAnalysis id s = true <->
     0 < id < currentBatchId s /\ 0 < dataCount (batches s).[id])
  /\ (forall s' b,
        rtc tx s s' -> b < currentBatchId s ->
        _isValidBatchForAnalysis b s' = _isValidBatchForAnalysis b s).
Proof.
  destruct (reachable_batch_inv s Hreach) as (_ & Hopen & _).
  split.
  - intros id. unfold _isValidBatchForAnalysis.
    rewrite !andb_true_iff, N.leb_le, !N.ltb_lt, negb_true_iff. split.
    + intros (((Hle & Hpos) & Hclosed) & Hcount).
      assert (id <> currentBatchId s).
      { intros Heq. apply Hopen in Heq. congruence. }
      split; [lia | exact Hcount].
    + intros ([Hpos Hlt] & Hcount). repeat split; try lia.
      destruct (isOpen (batches s).[id]) eqn:Hb; [|reflexivity].
      apply Hopen in Hb. lia.
  - intros s' b Htxs Hb.
    destruct (txs_batch_below s s' b Htxs Hb) as [Hrec Hlt].
    unfold _isValidBatchForAnalysis.
    rewrite Hrec.
    replace (b <=? currentBatchId s') with true by (symmetry; apply N.leb_le; lia).
    replace (b <=? currentBatchId s) with true by (symmetry; apply N.leb_le; lia).
    reflexivity.
Qed.
End Independence.

(** ** First actions and open access *)

Section Access.
Context {L : FHE.Lib}.

Lemma submitData_gate (d : N) (s : State) (env : Env) :
  (isProvider s).[msg_sender env] = true ->
  paused s = false ->
  (lastSubmissionTime s).[msg_sender env] + cooldownSeconds s <= MAX_UINT256 ->
  (submitData d s env = Revert CooldownActive <->
     block_timestamp env
       < (lastSubmissionTime s).[msg_sender env] + cooldownSeconds s).
Proof.
  intros Hprov Hrun Hfit. unfold submitData, onlyProvider, whenNotPaused.
  rewrite Hprov, Hrun; cbn [negb revert_if bind].
  rewrite checked_add_fits by exact Hfit. cbn [bind].
  destruct (N.ltb_spec (block_timestamp env)
              ((lastSubmissionTime s).[msg_sender env] + cooldownSeconds s))
    as [Hlt|Hge]; cbn [revert_if bind]; [done|].
  split; [|lia]. intros Hres. exfalso.
  destruct (isOpen (batches s).[currentBatchId s]);
    cbn [negb revert_if bind] in Hres; [|discriminate].
  unfold checked_add in Hres.
  destruct (_ <=? MAX_UINT256) in Hres; cbn [bind] in Hres; discriminate.
Qed.

Lemma request_gate (id : N) (s : State) (env : Env) :
  paused s = false ->
  (lastDecryptionRequestTime s).[msg_sender env] + cooldownSeconds s
    <= MAX_UINT256 ->
  (requestAverageDecryption id s env = Revert CooldownActive <->
     block_timestamp env
       < (lastDecryptionRequestTime s).[msg_sender env] + cooldownSeconds s).
Proof.
  intros Hrun Hfit. unfold requestAverageDecryption, whenNotPaused.
  rewrite Hrun; cbn [revert_if bind].
  rewrite checked_add_fits by exact Hfit. cbn [bind].
  destruct (N.ltb_spec (block_timestamp env)
              ((lastDecryptionRequestTime s).[msg_sender env] + cooldownSeconds s))
    as [Hlt|Hge]; cbn [revert_if bind]; [done|].
  split; [|lia]. intros Hres. exfalso.
  destruct (_isValidBatchForAnalysis id s);
    cbn [negb revert_if bind] in Hres; [|discriminate].
  rewrite average_cts_closed in Hres.
  destruct (_ <? MAX_UINT256) in Hres; cbn [bind] in Hres; discriminate.
Qed.

(** X19.  An address that never acted has last action time zero, so its
    first action is measured against the epoch: a provider's first
    submission, and anyone's first request, fails with CooldownActive
    exactly when the block timestamp is below the cooldown (the contract
    not being paused and the cooldown fitting in 256 bits). *)
Theorem X19_first_action (d id : N) (s : State) (env : Env)
    (Hrun : paused s = false) (Hcd : cooldownSeconds s <= MAX_UINT256) :
  ((isProvider s).[msg_sender env] = true ->
   lastSubmissionTime s !! msg_sender env = None ->
   (submitData d s env = Revert CooldownActive <->
      block_timestamp env < cooldownSeconds s))
  /\ (lastDecryptionRequestTime s !! msg_sender env = None ->
      (requestAverageDecryption id s env = Revert CooldownActive <->
         block_timestamp env < cooldownSeconds s)).
Proof.
  split.
  - intros Hprov Hnever.
    assert (Hzero : (lastSubmissionTime s).[msg_sender env] = 0)
      by (unfold mread; by rewrite Hnever).
    rewrite (submitData_gate d s env Hprov Hrun) by (rewrite Hzero; lia).
    by rewrite Hzero.
  - intros Hnever.
    assert (Hzero : (lastDecryptionRequestTime s).[msg_sender env] = 0)
      by (unfold mread; by rewrite Hnever).
    rewrite (request_gate id s env Hrun) by (rewrite Hzero; lia).
    by rewrite Hzero.
Qed.

(** X20.  requestAverageDecryption carries no role check: on two storages
    that differ in the owner and the provider set only it fails with the
    same error or commits to storages that again differ in the owner and
    the provider set only.  Any address may ask for the average of a valid
    batch. *)
Theorem X20_request_ignores_roles
    (id : N) (s : State) (env : Env) (o : N) (m : gmap N bool) :
  requestAverageDecryption id (set_isProvider m (set_owner o s)) env =
    match requestAverageDecryption id s env with
    | Ok s' => Ok (set_isProvider m (set_owner o s'))
    | Revert e => Revert e
    end.
Proof.
  unfold requestAverageDecryption, whenNotPaused.
  cbn [paused lastDecryptionRequestTime cooldownSeconds set_isProvider set_owner].
  destruct (paused s); cbn [revert_if bind]; [reflexivity|].
  destruct (checked_add _ _) as [allowedAt|e]; cbn [bind]; [|reflexivity].
  destruct (block_timestamp env <? allowedAt); cbn [revert_if bind]; [reflexivity|].
  change (_isValidBatchForAnalysis id (set_isProvider m (set_owner o s)))
    with (_isValidBatchForAnalysis id s).
  destruct (_isValidBatchForAnalysis id s); cbn [negb revert_if bind]; [|reflexivity].
  rewrite (average_cts_dataCount id
             (set_lastDecryptionRequestTime
                (<[msg_sender env := block_timestamp env]>
                   (lastDecryptionRequestTime s)) s)
             (set_lastDecryptionRequestTime
                (<[msg_sender env := block_timestamp env]>
                   (lastDecryptionRequestTime s))
                (set_isProvider m (set_owner o s)))) by reflexivity.
  destruct (average_cts _ _) as [cts|e]; reflexivity.
Qed.
End Access.

(** ** The further properties on the simulated history *)

Lemma step_requested_fulfilled : step (L := Sim.lib) Sim.requested Sim.fulfilled.
Proof.
  sim_tx (CallMyCallback 77 Sim.five Sim.good_proof) (Sim.at_time Sim.mallory 4000 78).
Qed.

Lemma X1_owner_only_witness :
  exec (L := Sim.lib) (CallSetPaused true) Sim.genesis (Sim.at_time Sim.alice 1500 0)
  = Revert NotOwner.
Proof.
  apply (X1_owner_only (L := Sim.lib)); [reflexivity | vm_compute; discriminate].
Defined.

Lemma X2_non_owner_frame_witness :
  owner Sim.requested = owner Sim.sealed
  /\ isProvider Sim.requested = isProvider Sim.sealed
  /\ paused Sim.requested = paused Sim.sealed
  /\ cooldownSeconds Sim.requested = cooldownSeconds Sim.sealed
  /\ currentBatchId Sim.requested = currentBatchId Sim.sealed
  /\ forall b, isOpen (batches Sim.requested).[b] = isOpen (batches Sim.sealed).[b].
Proof.
  apply (X2_non_owner_frame (L := Sim.lib) (CallRequestAverageDecryption 1)
           Sim.sealed Sim.requested (Sim.at_time Sim.alice 3000 77)).
  - vm_compute. reflexivity.
  - vm_compute. discriminate.
Defined.

Lemma X3_cooldown_positive_witness :
  0 < cooldownSeconds Sim.genesis
  /\ (forall env,
        setCooldownSeconds 0 Sim.genesis env =
          Revert (if msg_sender env =? owner Sim.genesis
                  then InvalidCooldown else NotOwner))
  /\ (forall d d' env s1,
        submitData (L := Sim.lib) d Sim.genesis env = Ok s1 ->
        submitData (L := Sim.lib) d' s1 env = Revert CooldownActive
        \/ submitData (L := Sim.lib) d' s1 env = Revert (Panic ARITHMETIC_OVERFLOW)).
Proof. exact (X3_cooldown_positive (L := Sim.lib) Sim.genesis reachable_genesis). Defined.

Lemma X4_provider_idempotent_witness :
  exists s1,
    addProvider Sim.alice Sim.genesis (Sim.at_time Sim.deployer 1500 0) = Ok s1
    /\ (isProvider s1).[Sim.alice] = true
    /\ addProvider Sim.alice s1 (Sim.at_time Sim.deployer 1500 0) = Ok s1.
Proof.
  destruct (X4_provider_idempotent Sim.alice Sim.genesis
              (Sim.at_time Sim.deployer 1500 0) eq_refl)
    as [(s1 & Hadd & Hp & _ & _ & Hagain) _].
  exists s1. auto.
Defined.

Lemma X5_ownership_without_provider_role_witness :
  submitData (L := Sim.lib) 6
    (Sim.run [(CallTransferOwnership Sim.alice, Sim.at_time Sim.deployer 1500 0)]
       Sim.genesis)
    (Sim.at_time Sim.alice 1600 0)
  = Revert NotProvider.
Proof.
  destruct (X5_ownership_without_provider_role (L := Sim.lib) Sim.alice Sim.genesis
              (Sim.run [(CallTransferOwnership Sim.alice,
                         Sim.at_time Sim.deployer 1500 0)] Sim.genesis)
              (Sim.at_time Sim.deployer 1500 0))
    as (_ & _ & Hsubmit & _).
  - vm_compute. reflexivity.
  - apply Hsubmit; reflexivity.
Defined.

Lemma X6_closed_batches_frozen_witness :
  (batches Sim.requested).[1] = (batches Sim.sealed).[1]
  /\ 1 < currentBatchId Sim.requested.
Proof.
  apply (X6_closed_batches_frozen (L := Sim.lib)).
  - apply rtc_once, step_tx, step_sealed_requested.
  - vm_compute. reflexivity.
Defined.

Lemma X7_item_count_monotone_witness :
  dataCount (batches Sim.genesis).[1] <= dataCount (batches Sim.submitted).[1].
Proof.
  apply (X7_item_count_monotone (L := Sim.lib)).
  - exact reachable_genesis.
  - apply rtc_once, step_tx, step_genesis_submitted.
Defined.

Lemma X8_log_accounts_for_batches_witness :
  opened_ids (events Sim.sealed) = [1; 2]
  /\ closed_ids (events Sim.sealed) = [1]
  /\ submitted_ids 1 (events Sim.sealed) = [1].
Proof.
  destruct (X8_log_accounts_for_batches (L := Sim.lib) Sim.sealed reachable_sealed)
    as (Hopened & Hclosed & Hitems).
  split; [exact Hopened|]. split; [exact Hclosed|]. exact (Hitems 1).
Defined.

Lemma X9_rotation_witness :
  exists s',
    openNewBatch Sim.submitted (Sim.at_time Sim.deployer 2001 0) = Ok s'
    /\ currentBatchId s' = 2
    /\ (batches s').[1] = {| isOpen := false; dataCount := 1 |}
    /\ (batches s').[2] = {| isOpen := true; dataCount := 0 |}
    /\ _isValidBatchForAnalysis 1 s' = true.
Proof.
  destruct (X9_rotation (L := Sim.lib) Sim.submitted (Sim.at_time Sim.deployer 2001 0)
              reachable_submitted eq_refl eq_refl) as [Hrotate _].
  destruct Hrotate as (s' & H & Hc & H1 & H2 & _ & Hv); [vm_compute; reflexivity|].
  exists s'. split; [exact H|]. split; [exact Hc|]. split; [exact H1|].
  split; [exact H2 | exact Hv].
Defined.

Lemma X10_submit_never_batch_closed_witness :
  submitData (L := Sim.lib) 6 Sim.sealed (Sim.at_time Sim.deployer 2100 0)
  <> Revert BatchClosedOrInvalid.
Proof. exact (X10_submit_never_batch_closed (L := Sim.lib) 6 _ _ reachable_sealed). Defined.

Lemma X11_last_action_times_monotone_witness :
  (lastSubmissionTime Sim.genesis).[Sim.deployer]
    <= (lastSubmissionTime Sim.submitted).[Sim.deployer]
  /\ (lastDecryptionRequestTime Sim.genesis).[Sim.deployer]
       <= (lastDecryptionRequestTime Sim.submitted).[Sim.deployer].
Proof.
  apply (X11_last_action_times_monotone (L := Sim.lib)).
  apply rtc_once, step_tx, step_genesis_submitted.
Defined.

Lemma X12_paused_freezes_intake_witness :
  batches (Sim.run [(CallAddProvider Sim.alice, Sim.at_time Sim.deployer 1600 0)]
             Sim.halted) = batches Sim.halted
  /\ currentBatchId
       (Sim.run [(CallAddProvider Sim.alice, Sim.at_time Sim.deployer 1600 0)]
          Sim.halted) = currentBatchId Sim.halted.
Proof.
  destruct (X12_paused_freezes_intake (L := Sim.lib) (CallAddProvider Sim.alice)
              Sim.halted
              (Sim.run [(CallAddProvider Sim.alice, Sim.at_time Sim.deployer 1600 0)]
                 Sim.halted)
              (Sim.at_time Sim.deployer 1600 0))
    as (_ & Hb & Hc & _).
  - reflexivity.
  - vm_compute. reflexivity.
  - split; [exact Hb | exact Hc].
Defined.

Lemma X13_pending_request_consistent_witness :
  _isValidBatchForAnalysis 1 Sim.requested = true
  /\ forall cleartexts proof env e,
       myCallback (L := Sim.lib) 77 cleartexts proof Sim.requested env = Revert e ->
       e = InvalidProof \/ e = DecodeRevert.
Proof.
  destruct (X13_pending_request_consistent (L := Sim.lib) Sim.requested 77
              {| batchId := 1; stateHash := Sim.commitment 1; processed := false |}
              reachable_requested)
    as (Hvalid & _ & _ & Hfail).
  - vm_compute. reflexivity.
  - reflexivity.
  - split; [exact Hvalid | exact Hfail].
Defined.

Lemma X14_pending_request_fulfillable_witness :
  exists s',
    myCallback (L := Sim.lib) 77 Sim.five Sim.good_proof Sim.requested
      (Sim.at_time Sim.mallory 4000 78) = Ok s'
    /\ events s' = events Sim.requested ++ [DecryptionCompleted 77 1 5].
Proof.
  destruct (X14_pending_request_fulfillable (L := Sim.lib) Sim.requested
              (Sim.at_time Sim.mallory 4000 78) 77 Sim.five Sim.good_proof
              {| batchId := 1; stateHash := Sim.commitment 1; processed := false |}
              reachable_requested)
    as (s' & H & _ & Hev & _).
  - vm_compute. reflexivity.
  - reflexivity.
  - reflexivity.
  - vm_compute. lia.
  - exists s'. split; [exact H | exact Hev].
Defined.

Lemma X15_request_then_callback_witness :
  exists s2,
    myCallback (L := Sim.lib) 77 Sim.five Sim.good_proof Sim.requested
      (Sim.at_time Sim.mallory 4000 78) = Ok s2
    /\ processed (decryptionContexts s2).[77] = true
    /\ events s2 =
         events Sim.sealed ++ [DecryptionRequested 77 1; DecryptionCompleted 77 1 5]
    /\ batches s2 = batches Sim.sealed.
Proof.
  destruct (X15_request_then_callback (L := Sim.lib) 1 Sim.sealed Sim.requested
              (Sim.at_time Sim.alice 3000 77) (Sim.at_time Sim.mallory 4000 78)
              Sim.five Sim.good_proof)
    as (_ & _ & Hcallback).
  - vm_compute. reflexivity.
  - reflexivity.
  - vm_compute. lia.
  - exact Hcallback.
Defined.

Lemma X17_contexts_persist_witness :
  exists ctx',
    decryptionContexts Sim.fulfilled !! 77 = Some ctx'
    /\ batchId ctx' = 1
    /\ stateHash ctx' = Sim.commitment 1.
Proof.
  destruct (X17_contexts_persist (L := Sim.lib) Sim.requested Sim.fulfilled 77
              {| batchId := 1; stateHash := Sim.commitment 1; processed := false |})
    as (ctx' & H & Hb & Hh & _).
  - apply rtc_once, step_requested_fulfilled.
  - vm_compute. reflexivity.
  - exists ctx'. split; [exact H|]. split; [exact Hb | exact Hh].
Defined.

Lemma X18_validity_settled_witness :
  (_isValidBatchForAnalysis 1 Sim.sealed = true <->
     0 < 1 < currentBatchId Sim.sealed /\ 0 < dataCount (batches Sim.sealed).[1])
  /\ _isValidBatchForAnalysis 1 Sim.requested = _isValidBatchForAnalysis 1 Sim.sealed.
Proof.
  destruct (X18_validity_settled (L := Sim.lib) Sim.sealed reachable_sealed)
    as [Hiff Hsettled].
  split; [exact (Hiff 1)|]. apply Hsettled.
  - apply rtc_once, step_tx, step_sealed_requested.
  - vm_compute. reflexivity.
Defined.

Lemma X19_first_action_witness :
  submitData (L := Sim.lib) 6 Sim.genesis (Sim.at_time Sim.deployer 30 0)
    = Revert CooldownActive
  <-> 30 < 60.
Proof.
  destruct (X19_first_action (L := Sim.lib) 6 1 Sim.genesis
              (Sim.at_time Sim.deployer 30 0)) as [Hsubmit _].
  - reflexivity.
  - vm_compute. discriminate.
  - apply Hsubmit; reflexivity.
Defined.
